(** * The Poke lists server: a shallow embedding of [src/server.py]

    The server keeps one process-wide dictionary
    [user_lists_data : {user_id: {list_name: list_data}}] and exposes eight
    tools that read or update the caller's part of it.  Every tool is
    embedded as a function from the request headers, its arguments and the
    store to a response and the store after the call.

    Modelling choices:
    - Python [int] is [Z] (unbounded); [len] is [Z.of_nat (length _)].
    - Python [str] is [string]; [str.lower] is modelled on ASCII text, where
      it maps the letters A-Z to a-z and leaves every other character alone.
    - The outer dictionary is never iterated, so it is a [gmap]; a user's
      list collection is iterated by [get_lists] and [search_items], so it
      is an insertion-ordered association list with the update rules of a
      Python dict.
    - A response dict is a constructor of [Response] carrying the payload
      keys of that response; responses are snapshots taken when the tool
      returns.
    - A tool takes all its arguments; a caller that leaves out
      [description], [quantity], [notes] or [list_name] passes the default
      of the signature ([""], [1], [""], [None]). *)

From Stdlib Require Import ZArith Ascii String List.
From stdpp Require Import base option list strings pretty gmap fin_maps.

Local Open Scope Z_scope.

(** ** Strings *)

(** [str.lower] on one ASCII character. *)
Definition ascii_lower (c : ascii) : ascii :=
  let n := nat_of_ascii c in
  if (Nat.leb 65 n && Nat.leb n 90)%bool then ascii_of_nat (n + 32) else c.

(** [s.lower()] for an ASCII string [s]: the letters A-Z become a-z and
    nothing else changes.  Characters from 128 on are left alone, which
    is not what [str.lower] does on non-ASCII text, so the statements
    about matching take [isascii] strings. *)
Fixpoint lower (s : string) : string :=
  match s with
  | EmptyString => EmptyString
  | String c s' => String (ascii_lower c) (lower s')
  end.

(** [s.startswith(q)]. *)
Fixpoint startswith (q s : string) : bool :=
  match q, s with
  | EmptyString, _ => true
  | String _ _, EmptyString => false
  | String c q', String d s' => (Ascii.eqb c d && startswith q' s')%bool
  end.

(** [q in s] for strings: [q] occurs in [s] as a contiguous substring. *)
Fixpoint str_in (q s : string) : bool :=
  if startswith q s then true
  else match s with
       | EmptyString => false
       | String _ s' => str_in q s'
       end.

(** Truth value of a string in a condition: non-empty. *)
Definition str_truthy (s : string) : bool :=
  match s with
  | EmptyString => false
  | String _ _ => true
  end.

(** ** Insertion-ordered dictionaries with string keys *)

Section Dict.
Context {V : Type}.

Definition dict := list (string * V).

(** [d[k]], [None] standing for [KeyError]. *)
Fixpoint dict_get (k : string) (d : dict) : option V :=
  match d with
  | [] => None
  | (k', v) :: d' => if String.eqb k' k then Some v else dict_get k d'
  end.

(** [k in d]. *)
Definition dict_mem (k : string) (d : dict) : bool :=
  match dict_get k d with
  | Some _ => true
  | None => false
  end.

(** [d[k] = v]: an existing key keeps its position, a new key goes last. *)
Fixpoint dict_set (k : string) (v : V) (d : dict) : dict :=
  match d with
  | [] => [(k, v)]
  | (k', v') :: d' =>
      if String.eqb k' k then (k, v) :: d' else (k', v') :: dict_set k v d'
  end.

(** The dictionary left by [d.pop(k)]. *)
Fixpoint dict_del (k : string) (d : dict) : dict :=
  match d with
  | [] => []
  | (k', v') :: d' =>
      if String.eqb k' k then d' else (k', v') :: dict_del k d'
  end.
End Dict.

Arguments dict : clear implicits.

(** ** Data model *)

Module Item.
Record t := mk
  { text : string;
    quantity : Z;
    notes : string;
    completed : bool;
    id : Z }.

Definition set_completed (b : bool) (it : t) : t :=
  mk (text it) (quantity it) (notes it) b (id it).
End Item.

Module ListData.
Record t := mk
  { name : string;
    description : string;
    items : list Item.t }.

Definition set_items (its : list Item.t) (ld : t) : t :=
  mk (name ld) (description ld) its.
End ListData.

Module Summary.
Record t := mk
  { name : string;
    description : string;
    item_count : Z;
    completed_count : Z }.
End Summary.

(** A user's list collection and the process-wide store. *)
Definition UserLists := dict ListData.t.
Notation Store := (gmap string UserLists).

(** [user_lists_data] when the process starts. *)
Definition user_lists_data : Store := ∅.

(** The headers of the current request. *)
Notation Headers := (gmap string string).

(** The response dictionaries, one constructor per shape. *)
Inductive Response :=
| Failure (message : string)
| Created (message : string) (list_ : ListData.t)
| Added (message : string) (item : Item.t)
| Lists (lists : list Summary.t) (total_lists : Z)
| ListItems (list_name : string) (items : list Item.t) (total_items : Z)
| Removed (message : string) (removed_item : Item.t)
| Deleted (message : string) (deleted_list : ListData.t)
| Toggled (message : string) (item : Item.t)
| Found (query : string) (results : list (string * Item.t)) (total_found : Z).

(** The ["success"] key of a response. *)
Definition success (r : Response) : bool :=
  match r with
  | Failure _ => false
  | _ => true
  end.

(** [len(l)]. *)
Definition len {A} (l : list A) : Z := Z.of_nat (length l).

(** [sum(xs)]: start from 0 and add from the left. *)
Definition py_sum (xs : list Z) : Z := foldl Z.add 0 xs.

(** ** Identity *)

Definition get_user_id (headers : Headers) : string :=
  default "anonymous" (headers !! "x-user-id").

(** [get_user_lists]: the user's collection, created empty on first use. *)
Definition get_user_lists (user_id : string) (s : Store) : UserLists * Store :=
  match s !! user_id with
  | Some user_lists => (user_lists, s)
  | None => ([], <[user_id := []]> s)
  end.

(** ** Scans over an item sequence *)

(** Index of the first item whose id equals [item_id], counting from [i]:
    the [for i, item in enumerate(items)] loop up to its [break]. *)
Fixpoint find_id (item_id : Z) (items : list Item.t) (i : nat) : option nat :=
  match items with
  | [] => None
  | it :: rest =>
      if Z.eqb (Item.id it) item_id then Some i else find_id item_id rest (S i)
  end.

(** The item predicate of [search_items]. *)
Definition item_matches (query : string) (it : Item.t) : bool :=
  (str_in (lower query) (lower (Item.text it))
   || str_in (lower query) (lower (Item.notes it)))%bool.

(** ** The tools

    Each tool resolves the caller, fetches the caller's collection and
    works on it.  Where the source tests [list_name not in user_lists] and
    later subscripts [user_lists[list_name]], the embedding does one
    [dict_get] and branches on its result. *)

Definition create_list (headers : Headers) (name description : string)
    (s : Store) : Response * Store :=
  let user_id := get_user_id headers in
  let '(user_lists, s) := get_user_lists user_id s in
  if dict_mem name user_lists then
    (Failure ("List '" +:+ name +:+ "' already exists"), s)
  else
    let list_data := ListData.mk name description [] in
    let user_lists := dict_set name list_data user_lists in
    (Created ("List '" +:+ name +:+ "' created successfully") list_data,
     <[user_id := user_lists]> s).

Definition add_item_to_list (headers : Headers) (list_name item : string)
    (quantity : Z) (notes : string) (s : Store) : Response * Store :=
  let user_id := get_user_id headers in
  let '(user_lists, s) := get_user_lists user_id s in
  match dict_get list_name user_lists with
  | None => (Failure ("List '" +:+ list_name +:+ "' does not exist"), s)
  | Some list_data =>
      let items := ListData.items list_data in
      let new_item := Item.mk item quantity notes false (len items + 1) in
      let list_data := ListData.set_items (items ++ [new_item]) list_data in
      (Added ("Item '" +:+ item +:+ "' added to list '" +:+ list_name +:+ "'")
         new_item,
       <[user_id := dict_set list_name list_data user_lists]> s)
  end.

Definition summary (entry : string * ListData.t) : Summary.t :=
  let '(list_name, list_data) := entry in
  Summary.mk list_name (ListData.description list_data)
    (len (ListData.items list_data))
    (py_sum (map (fun _ => 1)
               (List.filter Item.completed (ListData.items list_data)))).

Definition get_lists (headers : Headers) (s : Store) : Response * Store :=
  let user_id := get_user_id headers in
  let '(user_lists, s) := get_user_lists user_id s in
  let lists_summary := map summary user_lists in
  (Lists lists_summary (len lists_summary), s).

Definition get_list_items (headers : Headers) (list_name : string)
    (s : Store) : Response * Store :=
  let user_id := get_user_id headers in
  let '(user_lists, s) := get_user_lists user_id s in
  match dict_get list_name user_lists with
  | None => (Failure ("List '" +:+ list_name +:+ "' does not exist"), s)
  | Some list_data =>
      (ListItems list_name (ListData.items list_data)
         (len (ListData.items list_data)), s)
  end.

(** [items.pop(i)] at the index the scan stopped at; [None] when the loop
    ran to its end and [item_to_remove] stayed [None].  A popped item is a
    dict of five keys, hence true in [if item_to_remove:]. *)
Definition pop_by_id (item_id : Z) (items : list Item.t)
    : option (Item.t * list Item.t) :=
  match find_id item_id items 0 with
  | None => None
  | Some i =>
      match items !! i with
      | Some it => Some (it, delete i items)
      | None => None
      end
  end.

Definition remove_item_from_list (headers : Headers) (list_name : string)
    (item_id : Z) (s : Store) : Response * Store :=
  let user_id := get_user_id headers in
  let '(user_lists, s) := get_user_lists user_id s in
  match dict_get list_name user_lists with
  | None => (Failure ("List '" +:+ list_name +:+ "' does not exist"), s)
  | Some list_data =>
      match pop_by_id item_id (ListData.items list_data) with
      | Some (item_to_remove, items) =>
          (Removed ("Item removed from list '" +:+ list_name +:+ "'")
             item_to_remove,
           <[user_id := dict_set list_name (ListData.set_items items list_data)
                          user_lists]> s)
      | None =>
          (Failure ("Item with ID " +:+ pretty item_id +:+ " not found in list '"
                    +:+ list_name +:+ "'"), s)
      end
  end.

Definition delete_list (headers : Headers) (list_name : string)
    (s : Store) : Response * Store :=
  let user_id := get_user_id headers in
  let '(user_lists, s) := get_user_lists user_id s in
  match dict_get list_name user_lists with
  | None => (Failure ("List '" +:+ list_name +:+ "' does not exist"), s)
  | Some deleted_list =>
      (Deleted ("List '" +:+ list_name +:+ "' deleted successfully") deleted_list,
       <[user_id := dict_del list_name user_lists]> s)
  end.

(** The loop of [toggle_item_completion]: the first item with the id is
    flipped in place and returned. *)
Definition toggle_by_id (item_id : Z) (items : list Item.t)
    : option (Item.t * list Item.t) :=
  match find_id item_id items 0 with
  | None => None
  | Some i =>
      match items !! i with
      | Some it =>
          let it := Item.set_completed (negb (Item.completed it)) it in
          Some (it, <[i := it]> items)
      | None => None
      end
  end.

Definition toggle_item_completion (headers : Headers) (list_name : string)
    (item_id : Z) (s : Store) : Response * Store :=
  let user_id := get_user_id headers in
  let '(user_lists, s) := get_user_lists user_id s in
  match dict_get list_name user_lists with
  | None => (Failure ("List '" +:+ list_name +:+ "' does not exist"), s)
  | Some list_data =>
      match toggle_by_id item_id (ListData.items list_data) with
      | Some (item, items) =>
          let status :=
            if Item.completed item then "completed" else "uncompleted" in
          (Toggled ("Item marked as " +:+ status) item,
           <[user_id := dict_set list_name (ListData.set_items items list_data)
                          user_lists]> s)
      | None =>
          (Failure ("Item with ID " +:+ pretty item_id +:+ " not found in list '"
                    +:+ list_name +:+ "'"), s)
      end
  end.

(** [lists_to_search]: the one named list when [list_name] is truthy and a
    key of the collection, the whole collection otherwise.  The test
    [list_name in user_lists] and the subscript [user_lists[list_name]] are
    one [dict_get]. *)
Definition lists_to_search (list_name : option string) (user_lists : UserLists)
    : UserLists :=
  match list_name with
  | Some n =>
      if str_truthy n then
        match dict_get n user_lists with
        | Some list_data => [(n, list_data)]
        | None => user_lists
        end
      else user_lists
  | None => user_lists
  end.

(** The inner loop of [search_items] over one list. *)
Definition search_list (query : string) (entry : string * ListData.t)
    : list (string * Item.t) :=
  let '(list_name, list_data) := entry in
  map (pair list_name)
    (List.filter (item_matches query) (ListData.items list_data)).

Definition search_items (headers : Headers) (query : string)
    (list_name : option string) (s : Store) : Response * Store :=
  let user_id := get_user_id headers in
  let '(user_lists, s) := get_user_lists user_id s in
  let results :=
    concat (map (search_list query) (lists_to_search list_name user_lists)) in
  (Found query results (len results), s).

(** ** Requests and traces *)

(** A tool call with its arguments. *)
Inductive Call :=
| CreateList (name description : string)
| AddItem (list_name item : string) (quantity : Z) (notes : string)
| GetLists
| GetListItems (list_name : string)
| RemoveItem (list_name : string) (item_id : Z)
| DeleteList (list_name : string)
| ToggleItem (list_name : string) (item_id : Z)
| SearchItems (query : string) (list_name : option string).

(** A request: the headers it carries and the tool it calls. *)
Definition Request := (Headers * Call)%type.

Definition exec (req : Request) (s : Store) : Response * Store :=
  let '(headers, call) := req in
  match call with
  | CreateList name description => create_list headers name description s
  | AddItem list_name item quantity notes =>
      add_item_to_list headers list_name item quantity notes s
  | GetLists => get_lists headers s
  | GetListItems list_name => get_list_items headers list_name s
  | RemoveItem list_name item_id =>
      remove_item_from_list headers list_name item_id s
  | DeleteList list_name => delete_list headers list_name s
  | ToggleItem list_name item_id =>
      toggle_item_completion headers list_name item_id s
  | SearchItems query list_name => search_items headers query list_name s
  end.

(** The server handling requests one after the other. *)
Fixpoint run (reqs : list Request) (s : Store) : list Response * Store :=
  match reqs with
  | [] => ([], s)
  | req :: reqs' =>
      let '(r, s1) := exec req s in
      let '(rs, s2) := run reqs' s1 in
      (r :: rs, s2)
  end.

(** The collection a user sees: empty until the user has made a list. *)
Definition user_lists_of (user_id : string) (s : Store) : UserLists :=
  match s !! user_id with
  | Some user_lists => user_lists
  | None => []
  end.

(** The items of list [list_name] of [user_id], when the list exists. *)
Definition items_of (user_id list_name : string) (s : Store)
    : option (list Item.t) :=
  ListData.items <$> dict_get list_name (user_lists_of user_id s).

(** The request adds an item to list [list_name] of [user_id]. *)
Definition adds_to (user_id list_name : string) (req : Request) : bool :=
  match req with
  | (h, AddItem l _ _ _) =>
      (String.eqb (get_user_id h) user_id && String.eqb l list_name)%bool
  | _ => false
  end.

(** The request takes something away from list [list_name] of [user_id]:
    one of its items, or the list itself. *)
Definition removes_from (user_id list_name : string) (req : Request) : bool :=
  match req with
  | (h, RemoveItem l _) | (h, DeleteList l) =>
      (String.eqb (get_user_id h) user_id && String.eqb l list_name)%bool
  | _ => false
  end.

(** The id a response to [add_item_to_list] carries. *)
Definition returned_id (r : Response) : option Z :=
  match r with
  | Added _ it => Some (Item.id it)
  | _ => None
  end.

(** The ids returned, in call order, to the requests of a trace that add to
    list [list_name] of [user_id]. *)
Fixpoint added_ids (user_id list_name : string) (reqs : list Request)
    (rs : list Response) : list Z :=
  match reqs, rs with
  | req :: reqs', r :: rs' =>
      if adds_to user_id list_name req then
        match returned_id r with
        | Some i => i :: added_ids user_id list_name reqs' rs'
        | None => added_ids user_id list_name reqs' rs'
        end
      else added_ids user_id list_name reqs' rs'
  | _, _ => []
  end.

(** [m+1, m+2, ..., m+n]. *)
Fixpoint ids_from (m : Z) (n : nat) : list Z :=
  match n with
  | O => []
  | S n' => (m + 1) :: ids_from (m + 1) n'
  end.

(** ** Notions used in the statements *)

(** No item of the sequence has id [item_id]. *)
Definition id_free (item_id : Z) (items : list Item.t) : Prop :=
  Forall (fun y => Item.id y <> item_id) items.

(** [x] is the first item of the sequence with id [item_id]; [l1] comes
    before it and [l2] after. *)
Definition first_with_id (item_id : Z) (items l1 : list Item.t) (x : Item.t)
    (l2 : list Item.t) : Prop :=
  items = l1 ++ x :: l2 /\ id_free item_id l1 /\ Item.id x = item_id.

(** The store with the items of list [L] of user [u] replaced. *)
Definition with_items (u L : string) (its : list Item.t) (ld : ListData.t)
    (s : Store) : Store :=
  <[u := dict_set L (ListData.set_items its ld) (user_lists_of u s)]> s.

(** [q] occurs in [s] as a contiguous substring. *)
Definition is_substring (q s : string) : Prop :=
  exists a b, s = a +:+ q +:+ b.


(** Position [j] holds an item whose id an earlier item also carries. *)
Definition shadowed (items : list Item.t) (j : nat) : Prop :=
  exists i x y, (i < j)%nat /\ items !! i = Some x /\ items !! j = Some y /\
                Item.id x = Item.id y.

(** The request is a call of [toggle_item_completion]. *)
Definition is_toggle (req : Request) : bool :=
  match req with
  | (_, ToggleItem _ _) => true
  | _ => false
  end.

(** [s.isascii()]: every character of [s] is below 128. *)
Definition isascii (s : string) : bool :=
  forallb (fun c => Nat.ltb (nat_of_ascii c) 128) (list_ascii_of_string s).

(** The text and the notes of the item are ASCII. *)
Definition item_ascii (it : Item.t) : bool :=
  (isascii (Item.text it) && isascii (Item.notes it))%bool.

(** The texts and notes of all items of all lists of the collection are
    ASCII.  On ASCII strings [lower] is [str.lower]; the statements about
    matching are made for such collections and ASCII queries. *)
Definition lists_ascii (ul : UserLists) : bool :=
  forallb (fun entry : string * ListData.t =>
             forallb item_ascii (ListData.items (snd entry))) ul.

(** ** Sample requests and stores *)

Definition alice : Headers := {[ "x-user-id" := "alice" ]}.

Definition bob : Headers := {[ "x-user-id" := "bob" ]}.

Definition no_headers : Headers := ∅.

Definition milk : Item.t := Item.mk "milk" 1 "" false 1.

(** Alice's store after [create_list("G")]. *)
Definition empty_list_store : Store :=
  {[ "alice" := [("G", ListData.mk "G" "" [])] ]}.

(** Alice's store after [create_list("G")] and one [add_item_to_list]. *)
Definition one_item_store : Store :=
  {[ "alice" := [("G", ListData.mk "G" "" [milk])] ]}.

(** Alice's store with a list whose name is the empty string. *)
Definition unnamed_list_store : Store :=
  {[ "alice" :=
       [ ("", ListData.mk "" "" [milk]);
         ("B", ListData.mk "B" "" [Item.mk "oat milk" 1 "" false 1]) ] ]}.

(** Alice's list after the id collision: two items of id 3. *)
Definition collided_store : Store :=
  {[ "alice" :=
       [ ("G", ListData.mk "G" ""
                 [ milk; Item.mk "tea" 1 "" false 3;
                   Item.mk "jam" 1 "" false 3 ]) ] ]}.

(** ** Steps of a collection, reachable stores *)

(** The list a call addresses by name, for the tools that first look the
    list up and fail when it is missing. *)
Definition call_list_name (c : Call) : option string :=
  match c with
  | AddItem l _ _ _ | GetListItems l | RemoveItem l _ | DeleteList l
  | ToggleItem l _ => Some l
  | CreateList _ _ | GetLists | SearchItems _ _ => None
  end.

(** What a call can do to the caller's collection: nothing (the reads and
    every failure), or the one update of its tool. *)
Inductive lists_step : Call -> UserLists -> UserLists -> Prop :=
| step_none c ul : lists_step c ul ul
| step_create n d ul :
    dict_get n ul = None ->
    lists_step (CreateList n d) ul (ul ++ [(n, ListData.mk n d [])])
| step_add l t q nt ul ld :
    dict_get l ul = Some ld ->
    let x := Item.mk t q nt false (len (ListData.items ld) + 1) in
    lists_step (AddItem l t q nt) ul
      (dict_set l (ListData.set_items (ListData.items ld ++ [x]) ld) ul)
| step_remove l i ul ld l1 x l2 :
    dict_get l ul = Some ld ->
    first_with_id i (ListData.items ld) l1 x l2 ->
    lists_step (RemoveItem l i) ul
      (dict_set l (ListData.set_items (l1 ++ l2) ld) ul)
| step_delete l ul ld :
    dict_get l ul = Some ld ->
    lists_step (DeleteList l) ul (dict_del l ul)
| step_toggle l i ul ld l1 x l2 :
    dict_get l ul = Some ld ->
    first_with_id i (ListData.items ld) l1 x l2 ->
    let x' := Item.set_completed (negb (Item.completed x)) x in
    lists_step (ToggleItem l i) ul
      (dict_set l (ListData.set_items (l1 ++ x' :: l2) ld) ul).

(** The stores the server can be in: those a trace of requests leads to
    from the empty [user_lists_data]. *)
Definition reachable (s : Store) : Prop :=
  exists reqs, s = snd (run reqs user_lists_data).

(** List names are the keys, each once, and every record carries its key
    as its name. *)
Definition wf_lists (ul : UserLists) : Prop :=
  NoDup (map fst ul) /\
  Forall (fun entry : string * ListData.t =>
            ListData.name (snd entry) = fst entry) ul.

(** Every item's id is at least its 1-based position. *)
Definition ids_ge_pos (items : list Item.t) : Prop :=
  forall (i : nat) it, items !! i = Some it -> Z.of_nat i + 1 <= Item.id it.

(** The ids of the sequence are 1, 2, ..., its length, in order. *)
Definition ids_in_order (items : list Item.t) : Prop :=
  map Item.id items = ids_from 0 (length items).

(** The request deletes list [list_name] of [user_id]. *)
Definition deletes (user_id list_name : string) (req : Request) : bool :=
  match req with
  | (h, DeleteList l) =>
      (String.eqb (get_user_id h) user_id && String.eqb l list_name)%bool
  | _ => false
  end.

(** One [add_item_to_list] request per entry (text, quantity, notes). *)
Definition add_calls (h : Headers) (list_name : string)
    (entries : list (string * Z * string)) : list Request :=
  map (fun e : string * Z * string =>
         (h, AddItem list_name (fst (fst e)) (snd (fst e)) (snd e))) entries.

(** The items those requests make on a list that holds [m] items. *)
Fixpoint new_items (m : Z) (entries : list (string * Z * string))
    : list Item.t :=
  match entries with
  | [] => []
  | e :: rest =>
      Item.mk (fst (fst e)) (snd (fst e)) (snd e) false (m + 1)
      :: new_items (m + 1) rest
  end.

(** The users that make the requests of a trace. *)
Definition callers (reqs : list Request) : gset string :=
  list_to_set (map (fun req : Request => get_user_id (fst req)) reqs).

(** A trace that leaves Alice with two lists and Bob with one. *)
Definition sample_trace : list Request :=
  [ (alice, CreateList "G" "groceries");
    (alice, AddItem "G" "milk" 1 "");
    (alice, AddItem "G" "eggs" 12 "free range");
    (bob, CreateList "G" "games");
    (alice, CreateList "T" "todo");
    (alice, ToggleItem "G" 2);
    (alice, RemoveItem "G" 1) ].

Definition sample_store : Store := snd (run sample_trace user_lists_data).

(** * Properties *)

(** ** Strings *)

Lemma append_cons (c : ascii) (a b : string) :
  String c a +:+ b = String c (a +:+ b).
Proof. reflexivity. Qed.

Lemma startswith_app (q s : string) :
  startswith q s = true <-> exists b, s = q +:+ b.
Proof.
  revert s. induction q as [|c q IH]; intros s; simpl.
  - split; [|done]. intros _. by exists s.
  - destruct s as [|d s]; setoid_rewrite append_cons.
    + split; [done|]. by intros [b Hb].
    + destruct (Ascii.eqb c d) eqn:E; simpl.
      * apply Ascii.eqb_eq in E as ->. rewrite IH.
        split; intros [b Hb]; exists b; congruence.
      * apply Ascii.eqb_neq in E. split; [done|].
        intros [b Hb]. congruence.
Qed.

(** [str_in] is the substring relation. *)
Lemma str_in_spec (q s : string) :
  str_in q s = true <-> exists a b, s = a +:+ q +:+ b.
Proof.
  induction s as [|c s IH]; simpl.
  - destruct (startswith q "") eqn:Hp.
    + apply startswith_app in Hp as [b Hb]. split; [|done].
      intros _. by exists "", b.
    + split; [done|]. intros ([|? a] & b & Hab); [|done].
      assert (startswith q "" = true) by (apply startswith_app; eauto).
      congruence.
  - destruct (startswith q (String c s)) eqn:Hp.
    + apply startswith_app in Hp as [b Hb]. split; [|done].
      intros _. by exists "", b.
    + rewrite IH. split.
      * intros (a & b & ->). by exists (String c a), b.
      * intros ([|d a] & b & Hab).
        -- assert (startswith q (String c s) = true)
             by (apply startswith_app; eauto).
           congruence.
        -- rewrite append_cons in Hab. exists a, b. congruence.
Qed.


(** ** Dictionaries *)

Section DictFacts.
Context {V : Type}.
Implicit Types (d : dict V) (k : string) (v : V).

Lemma dict_get_set_eq k v d : dict_get k (dict_set k v d) = Some v.
Proof.
  induction d as [|[k' v'] d IH]; simpl.
  - by rewrite String.eqb_refl.
  - destruct (String.eqb k' k) eqn:E; simpl.
    + by rewrite String.eqb_refl.
    + by rewrite E.
Qed.

Lemma dict_get_set_ne k k' v d :
  k <> k' -> dict_get k' (dict_set k v d) = dict_get k' d.
Proof.
  intros Hne. induction d as [|[k0 v0] d IH]; simpl.
  - by apply String.eqb_neq in Hne as ->.
  - destruct (String.eqb k0 k) eqn:E; simpl.
    + apply String.eqb_eq in E as ->.
      by apply String.eqb_neq in Hne as ->.
    + by rewrite IH.
Qed.

Lemma dict_set_id k v d : dict_get k d = Some v -> dict_set k v d = d.
Proof.
  induction d as [|[k' v'] d IH]; simpl; [done|].
  destruct (String.eqb k' k) eqn:E.
  - apply String.eqb_eq in E as ->. congruence.
  - intros H. by rewrite IH.
Qed.

Lemma dict_set_set k v v' d :
  dict_set k v (dict_set k v' d) = dict_set k v d.
Proof.
  induction d as [|[k' v0] d IH]; simpl.
  - by rewrite String.eqb_refl.
  - destruct (String.eqb k' k) eqn:E; simpl.
    + by rewrite String.eqb_refl.
    + by rewrite E, IH.
Qed.

Lemma dict_get_del_ne k k' d :
  k <> k' -> dict_get k' (dict_del k d) = dict_get k' d.
Proof.
  intros Hne. induction d as [|[k0 v0] d IH]; simpl; [done|].
  destruct (String.eqb k0 k) eqn:E; simpl.
  - apply String.eqb_eq in E as ->.
    by apply String.eqb_neq in Hne as ->.
  - by rewrite IH.
Qed.
End DictFacts.

(** ** Scans *)

Lemma find_id_None item_id items k :
  find_id item_id items k = None <-> id_free item_id items.
Proof.
  unfold id_free. revert k. induction items as [|y items IH]; intros k; simpl.
  - split; [constructor|done].
  - destruct (Z.eqb_spec (Item.id y) item_id) as [E|E].
    + split; [done|]. intros H. by inversion H.
    + rewrite IH. split; [by constructor|]. intros H. by inversion H.
Qed.

Lemma find_id_Some item_id items k i :
  find_id item_id items k = Some i <->
  exists l1 x l2, first_with_id item_id items l1 x l2 /\ i = (k + length l1)%nat.
Proof.
  unfold first_with_id, id_free.
  revert k. induction items as [|y items IH]; intros k; simpl.
  - split; [done|]. intros (l1 & x & l2 & (H & _) & _). by destruct l1.
  - destruct (Z.eqb_spec (Item.id y) item_id) as [E|E].
    + split.
      * intros [= <-]. exists [], y, items. simpl. repeat split; auto with lia.
      * intros ([|z l1] & x & l2 & (H & Hl1 & Hx) & ->); simpl in *.
        -- f_equal. lia.
        -- inversion Hl1; subst. congruence.
    + rewrite IH. split.
      * intros (l1 & x & l2 & (-> & Hl1 & Hx) & ->).
        exists (y :: l1), x, l2. simpl. repeat split; auto with lia.
      * intros ([|z l1] & x & l2 & (H & Hl1 & Hx) & ->); simpl in *.
        -- congruence.
        -- inversion H; subst. inversion Hl1; subst.
           exists l1, x, l2. repeat split; auto with lia.
Qed.

Lemma pop_by_id_None item_id items :
  pop_by_id item_id items = None <-> id_free item_id items.
Proof.
  unfold pop_by_id. rewrite <- (find_id_None item_id items 0).
  destruct (find_id item_id items 0) as [i|] eqn:E; [|done].
  apply find_id_Some in E as (l1 & x & l2 & (-> & _ & _) & ->).
  simpl. by rewrite list_lookup_middle.
Qed.

Lemma pop_by_id_Some item_id items x rest :
  pop_by_id item_id items = Some (x, rest) <->
  exists l1 l2, first_with_id item_id items l1 x l2 /\ rest = l1 ++ l2.
Proof.
  unfold pop_by_id. split.
  - destruct (find_id item_id items 0) as [i|] eqn:E; [|done].
    apply find_id_Some in E as (l1 & y & l2 & (-> & Hl1 & Hy) & ->). simpl.
    rewrite list_lookup_middle by done. rewrite delete_middle.
    intros [= <- <-]. by exists l1, l2.
  - intros (l1 & l2 & (-> & Hl1 & Hx) & ->).
    assert (find_id item_id (l1 ++ x :: l2) 0 = Some (length l1)) as ->.
    { apply find_id_Some. by exists l1, x, l2. }
    rewrite list_lookup_middle by done. by rewrite delete_middle.
Qed.

Lemma toggle_by_id_None item_id items :
  toggle_by_id item_id items = None <-> id_free item_id items.
Proof.
  unfold toggle_by_id. rewrite <- (find_id_None item_id items 0).
  destruct (find_id item_id items 0) as [i|] eqn:E; [|done].
  apply find_id_Some in E as (l1 & x & l2 & (-> & _ & _) & ->).
  simpl. by rewrite list_lookup_middle.
Qed.

Lemma toggle_by_id_first item_id items l1 x l2 :
  first_with_id item_id items l1 x l2 ->
  let x' := Item.set_completed (negb (Item.completed x)) x in
  toggle_by_id item_id items = Some (x', l1 ++ x' :: l2).
Proof.
  intros (-> & Hl1 & Hx). unfold toggle_by_id.
  assert (find_id item_id (l1 ++ x :: l2) 0 = Some (length l1)) as ->.
  { apply find_id_Some. by exists l1, x, l2. }
  rewrite list_lookup_middle by done. simpl.
  by rewrite insert_app_r_alt, Nat.sub_diag by lia.
Qed.

(** An item with the id exists exactly when the scan finds a first one. *)
Lemma first_with_id_exists item_id items :
  (exists y, y ∈ items /\ Item.id y = item_id) ->
  exists l1 x l2, first_with_id item_id items l1 x l2.
Proof.
  intros (y & Hy & Hid).
  destruct (find_id item_id items 0) as [i|] eqn:E.
  - apply find_id_Some in E as (l1 & x & l2 & H & _). eauto.
  - apply find_id_None in E. unfold id_free in E.
    rewrite Forall_forall in E. by apply E in Hy.
Qed.

Lemma first_with_id_unique item_id items l1 x l2 l1' x' l2' :
  first_with_id item_id items l1 x l2 ->
  first_with_id item_id items l1' x' l2' ->
  l1 = l1' /\ x = x' /\ l2 = l2'.
Proof.
  intros H H'.
  assert (find_id item_id items 0 = Some (length l1)) as E
    by (apply find_id_Some; by exists l1, x, l2).
  assert (find_id item_id items 0 = Some (length l1')) as E'
    by (apply find_id_Some; by exists l1', x', l2').
  rewrite E in E'. injection E' as Hlen.
  destruct H as (-> & _ & _), H' as (H' & _ & _).
  apply app_inj_1 in H' as [-> [= -> ->]]; done.
Qed.

(** ** The store *)

Lemma get_user_lists_spec user_id s :
  get_user_lists user_id s
  = (user_lists_of user_id s, <[user_id := user_lists_of user_id s]> s).
Proof.
  unfold get_user_lists, user_lists_of.
  destruct (s !! user_id) as [ul|] eqn:E; [|done].
  simpl. by rewrite insert_id.
Qed.

Lemma user_lists_of_insert_eq u ul s : user_lists_of u (<[u := ul]> s) = ul.
Proof. unfold user_lists_of. by rewrite lookup_insert_eq. Qed.

Lemma py_sum_ones {A} (l : list A) : py_sum (map (fun _ => 1) l) = len l.
Proof.
  unfold py_sum, len.
  enough (forall a, foldl Z.add a (map (fun _ => 1) l) = a + Z.of_nat (length l))
    as H by apply H.
  induction l as [|x l IH]; intros a; simpl; [lia|]. rewrite IH. lia.
Qed.

Lemma user_lists_of_singleton u ul : user_lists_of u ({[u := ul]} : Store) = ul.
Proof. unfold user_lists_of. by rewrite lookup_singleton_eq. Qed.

(** Rewriting hints for stores updated at the caller's key. *)
Ltac store_simpl :=
  repeat first
    [ rewrite get_user_lists_spec
    | rewrite user_lists_of_singleton
    | rewrite user_lists_of_insert_eq
    | rewrite insert_insert_eq
    | rewrite insert_singleton_eq ];
  cbv beta iota zeta.

(** A call runs as if the store held the caller's collection alone: the
    response and the caller's new collection are those of the call on the
    one-user store, and the new collection is written back under the
    caller's key. *)
Lemma exec_local (h : Headers) (c : Call) (s : Store) :
  let u := get_user_id h in
  exec (h, c) s =
  (fst (exec (h, c) {[u := user_lists_of u s]}),
   <[u := user_lists_of u (snd (exec (h, c) {[u := user_lists_of u s]}))]> s).
Proof.
  intros u. subst u.
  destruct c; unfold exec, create_list, add_item_to_list, get_lists,
    get_list_items, remove_item_from_list, delete_list,
    toggle_item_completion, search_items; store_simpl;
    repeat case_match; store_simpl; unfold fst, snd; store_simpl; done.
Qed.

(** A call leaves every other user's entry of the store as it was. *)
Lemma exec_frame (h : Headers) (c : Call) (s : Store) (v : string) :
  get_user_id h <> v -> snd (exec (h, c) s) !! v = s !! v.
Proof. intros Hne. rewrite exec_local. simpl. by rewrite lookup_insert_ne. Qed.

(** What a call returns and what it leaves in the caller's collection
    depend on the caller's collection only. *)
Lemma exec_agree (h : Headers) (c : Call) (s1 s2 : Store) :
  let u := get_user_id h in
  user_lists_of u s1 = user_lists_of u s2 ->
  fst (exec (h, c) s1) = fst (exec (h, c) s2) /\
  user_lists_of u (snd (exec (h, c) s1)) = user_lists_of u (snd (exec (h, c) s2)).
Proof.
  intros u E. rewrite (exec_local h c s1), (exec_local h c s2). fold u.
  rewrite E. simpl. by rewrite !user_lists_of_insert_eq.
Qed.

Lemma run_cons req reqs s :
  run (req :: reqs) s
  = (fst (exec req s) :: fst (run reqs (snd (exec req s))),
     snd (run reqs (snd (exec req s)))).
Proof.
  simpl. destruct (exec req s) as [r s1]. simpl. by destruct (run reqs s1).
Qed.

(** ** Adding items *)

Lemma items_of_insert_set u L ld ul s :
  items_of u L (<[u := dict_set L ld ul]> s) = Some (ListData.items ld).
Proof.
  unfold items_of. by rewrite user_lists_of_insert_eq, dict_get_set_eq.
Qed.

(** One call on an existing list: the new item takes the item count plus
    one as its id and goes last. *)
Lemma add_item_to_list_spec h L item quantity notes s ld :
  let u := get_user_id h in
  let ul := user_lists_of u s in
  let new_item :=
    Item.mk item quantity notes false (len (ListData.items ld) + 1) in
  dict_get L ul = Some ld ->
  add_item_to_list h L item quantity notes s
  = (Added ("Item '" +:+ item +:+ "' added to list '" +:+ L +:+ "'") new_item,
     <[u := dict_set L
              (ListData.set_items (ListData.items ld ++ [new_item]) ld) ul]> s).
Proof.
  intros u ul new_item Hget. unfold add_item_to_list. store_simpl.
  fold u ul. rewrite Hget. by store_simpl.
Qed.

Lemma toggle_by_id_length item_id items x items' :
  toggle_by_id item_id items = Some (x, items') -> length items' = length items.
Proof.
  unfold toggle_by_id. repeat case_match; try done.
  intros [= <- <-]. by rewrite length_insert.
Qed.

(** A request that neither adds to the list nor takes from it leaves the
    list in place with as many items as before. *)
Lemma exec_keeps_count u L req s items :
  items_of u L s = Some items ->
  removes_from u L req = false ->
  adds_to u L req = false ->
  exists items', items_of u L (snd (exec req s)) = Some items' /\
                 length items' = length items.
Proof.
  destruct req as [h c]. intros Hit Hrm Hadd.
  destruct (decide (get_user_id h = u)) as [Hu|Hne]; [subst u|].
  2: { exists items. split; [|done]. unfold items_of, user_lists_of in *.
    by rewrite exec_frame. }
  unfold items_of in *.
  destruct (dict_get L (user_lists_of (get_user_id h) s)) as [ld|] eqn:Hld;
    [|done].
  injection Hit as <-. simpl in Hrm, Hadd.
  rewrite String.eqb_refl in Hrm, Hadd. simpl in Hrm, Hadd.
  destruct c; unfold exec, create_list, add_item_to_list, get_lists,
    get_list_items, remove_item_from_list, delete_list,
    toggle_item_completion, search_items; store_simpl.
  - (* create_list *)
    destruct (dict_mem name _) eqn:Hm; simpl; store_simpl.
    + rewrite Hld. eauto.
    + rewrite dict_get_set_ne, Hld; [eauto|].
      intros ->. unfold dict_mem in Hm. by rewrite Hld in Hm.
  - (* add_item_to_list, on another list *)
    apply String.eqb_neq in Hadd.
    destruct (dict_get list_name _) eqn:Hl; simpl; store_simpl.
    + rewrite dict_get_set_ne, Hld by done. eauto.
    + rewrite Hld. eauto.
  - simpl. store_simpl. rewrite Hld. eauto.
  - destruct (dict_get list_name _); simpl; store_simpl; rewrite Hld; eauto.
  - (* remove_item_from_list, on another list *)
    apply String.eqb_neq in Hrm.
    destruct (dict_get list_name _) eqn:Hl; simpl; store_simpl;
      [|rewrite Hld; eauto].
    destruct (pop_by_id _ _) as [[? ?]|]; simpl; store_simpl.
    + rewrite dict_get_set_ne, Hld by done. eauto.
    + rewrite Hld. eauto.
  - (* delete_list, of another list *)
    apply String.eqb_neq in Hrm.
    destruct (dict_get list_name _) eqn:Hl; simpl; store_simpl.
    + rewrite dict_get_del_ne, Hld by done. eauto.
    + rewrite Hld. eauto.
  - (* toggle_item_completion *)
    destruct (dict_get list_name _) eqn:Hl; simpl; store_simpl;
      [|rewrite Hld; eauto].
    destruct (toggle_by_id _ _) as [[x its]|] eqn:Ht; simpl; store_simpl;
      [|rewrite Hld; eauto].
    destruct (decide (list_name = L)) as [->|Hne].
    + rewrite dict_get_set_eq. simpl. eexists; split; [done|].
      rewrite Hld in Hl. injection Hl as <-.
      by apply toggle_by_id_length in Ht.
    + rewrite dict_get_set_ne, Hld by done. eauto.
  - simpl. store_simpl. rewrite Hld. eauto.
Qed.

Lemma ids_from_length m n : length (ids_from m n) = n.
Proof. revert m. induction n; intros m; simpl; auto. Qed.

Lemma ids_from_lookup m n k :
  (k < n)%nat -> ids_from m n !! k = Some (m + Z.of_nat (S k)).
Proof.
  revert m k. induction n as [|n IH]; intros m k Hk; [lia|].
  destruct k as [|k]; simpl.
  - f_equal; lia.
  - rewrite IH by lia. f_equal; lia.
Qed.

Lemma ids_from_zero n : ids_from 0 n = map Z.of_nat (seq 1 n).
Proof.
  enough (forall m, ids_from (Z.of_nat m) n = map Z.of_nat (seq (S m) n)) as H
    by apply (H O).
  induction n as [|n IH]; intros m; simpl; [done|].
  f_equal; [lia|]. rewrite <- IH. f_equal; lia.
Qed.

(** The ids handed out along a trace without removals continue the count
    the list starts with. *)
Lemma added_ids_run u L reqs : forall s items,
  items_of u L s = Some items ->
  Forall (fun req => removes_from u L req = false) reqs ->
  added_ids u L reqs (fst (run reqs s))
  = ids_from (len items) (length (List.filter (adds_to u L) reqs)).
Proof.
  induction reqs as [|req reqs IH]; intros s items Hit Hrm; [done|].
  inversion Hrm as [|? ? Hreq Hrest]; subst.
  rewrite run_cons. simpl.
  destruct (adds_to u L req) eqn:Hadd.
  - destruct req as [h c]. destruct c; try done. simpl in Hadd.
    apply andb_prop in Hadd as [Hu Hl].
    apply String.eqb_eq in Hu, Hl. subst.
    unfold items_of in Hit.
    destruct (dict_get L _) as [ld|] eqn:Hld; [|done]. injection Hit as <-.
    unfold exec. rewrite (add_item_to_list_spec _ _ _ _ _ _ ld) by done.
    simpl. f_equal.
    erewrite IH; [|apply items_of_insert_set|done].
    f_equal. simpl. unfold len. rewrite length_app. simpl. lia.
  - destruct (exec_keeps_count u L req s items) as (items' & Hit' & Hlen);
      try done.
    rewrite (IH _ items') by done. unfold len. by rewrite Hlen.
Qed.

Lemma with_items_get u L its ld s :
  dict_get L (user_lists_of u (with_items u L its ld s))
  = Some (ListData.set_items its ld).
Proof.
  unfold with_items. by rewrite user_lists_of_insert_eq, dict_get_set_eq.
Qed.

Lemma with_items_items_of u L its ld s :
  items_of u L (with_items u L its ld s) = Some its.
Proof. unfold items_of. by rewrite with_items_get. Qed.

Lemma with_items_twice u L its its' ld s :
  with_items u L its' (ListData.set_items its ld) (with_items u L its ld s)
  = with_items u L its' ld s.
Proof.
  unfold with_items.
  by rewrite user_lists_of_insert_eq, insert_insert_eq, dict_set_set.
Qed.

Lemma set_items_id ld : ListData.set_items (ListData.items ld) ld = ld.
Proof. by destruct ld. Qed.

Lemma with_items_id u L ld s :
  dict_get L (user_lists_of u s) = Some ld ->
  with_items u L (ListData.items ld) ld s = s.
Proof.
  intros H. unfold with_items. rewrite set_items_id, dict_set_id by done.
  unfold user_lists_of in *. destruct (s !! u) eqn:E; [|done].
  by apply insert_id.
Qed.

Lemma store_insert_own u L ld s :
  dict_get L (user_lists_of u s) = Some ld ->
  <[u := user_lists_of u s]> s = s.
Proof.
  unfold user_lists_of. destruct (s !! u) eqn:E; [|done].
  intros _. by apply insert_id.
Qed.

Lemma add_item_to_list_existing h L item quantity notes s ld :
  let u := get_user_id h in
  let new_item :=
    Item.mk item quantity notes false (len (ListData.items ld) + 1) in
  dict_get L (user_lists_of u s) = Some ld ->
  add_item_to_list h L item quantity notes s
  = (Added ("Item '" +:+ item +:+ "' added to list '" +:+ L +:+ "'") new_item,
     with_items u L (ListData.items ld ++ [new_item]) ld s).
Proof. apply add_item_to_list_spec. Qed.

Lemma remove_item_from_list_found h L item_id s ld x rest :
  let u := get_user_id h in
  dict_get L (user_lists_of u s) = Some ld ->
  pop_by_id item_id (ListData.items ld) = Some (x, rest) ->
  remove_item_from_list h L item_id s
  = (Removed ("Item removed from list '" +:+ L +:+ "'") x,
     with_items u L rest ld s).
Proof.
  intros u Hld Hpop. unfold remove_item_from_list. store_simpl. fold u.
  rewrite Hld, Hpop. by store_simpl.
Qed.

Lemma remove_item_from_list_not_found h L item_id s ld :
  let u := get_user_id h in
  dict_get L (user_lists_of u s) = Some ld ->
  pop_by_id item_id (ListData.items ld) = None ->
  remove_item_from_list h L item_id s
  = (Failure ("Item with ID " +:+ pretty item_id +:+ " not found in list '"
              +:+ L +:+ "'"), s).
Proof.
  intros u Hld Hpop. unfold remove_item_from_list. store_simpl. fold u.
  rewrite Hld, Hpop. by erewrite store_insert_own.
Qed.

Lemma toggle_item_completion_found h L item_id s ld x its :
  let u := get_user_id h in
  dict_get L (user_lists_of u s) = Some ld ->
  toggle_by_id item_id (ListData.items ld) = Some (x, its) ->
  toggle_item_completion h L item_id s
  = (Toggled ("Item marked as "
              +:+ (if Item.completed x then "completed" else "uncompleted")) x,
     with_items u L its ld s).
Proof.
  intros u Hld Ht. unfold toggle_item_completion. store_simpl. fold u.
  rewrite Hld, Ht. by store_simpl.
Qed.

Lemma toggle_item_completion_not_found h L item_id s ld :
  let u := get_user_id h in
  dict_get L (user_lists_of u s) = Some ld ->
  toggle_by_id item_id (ListData.items ld) = None ->
  toggle_item_completion h L item_id s
  = (Failure ("Item with ID " +:+ pretty item_id +:+ " not found in list '"
              +:+ L +:+ "'"), s).
Proof.
  intros u Hld Ht. unfold toggle_item_completion. store_simpl. fold u.
  rewrite Hld, Ht. by erewrite store_insert_own.
Qed.

(** ** C1 *)

(** C1.  On a list that is empty at the start (a new list), any trace of
    requests (of any users, on any lists) that removes nothing from the
    list and does not delete it hands out, to its N calls of
    [add_item_to_list] on the list, exactly the ids 1..N in call order.
    Each call assigns the list's current item count plus one, so on a
    list that holds [m] items the k-th call returns m+k. *)
Theorem add_item_ids_continue_count (u L : string) (reqs : list Request)
    (s : Store) (items : list Item.t) :
  items_of u L s = Some items ->
  Forall (fun req => removes_from u L req = false) reqs ->
  let ids := added_ids u L reqs (fst (run reqs s)) in
  let N := length (List.filter (adds_to u L) reqs) in
  length ids = N /\
  (forall k, (k < N)%nat -> ids !! k = Some (len items + Z.of_nat (S k))) /\
  (items = [] -> ids = map Z.of_nat (seq 1 N)) /\
  (forall h item quantity notes, get_user_id h = u ->
     returned_id (fst (add_item_to_list h L item quantity notes s))
     = Some (len items + 1)).
Proof.
  intros Hit Hrm ids N. subst ids N.
  rewrite (added_ids_run u L reqs s items) by done.
  split; [apply ids_from_length|].
  split; [intros k Hk; by apply ids_from_lookup|].
  split; [intros ->; apply ids_from_zero|].
  intros h item quantity notes <-. unfold items_of in Hit.
  destruct (dict_get L _) as [ld|] eqn:Hld; [|done]. injection Hit as <-.
  by rewrite (add_item_to_list_existing _ _ _ _ _ _ ld).
Qed.

(** Three adds by Alice on her new list, with a toggle, a search and
    another user's removal in between: the ids are 1, 2, 3. *)
Lemma add_item_ids_continue_count_witness :
  let reqs : list Request :=
    [ (alice, AddItem "G" "eggs" 1 "");
      (alice, ToggleItem "G" 1);
      (bob, RemoveItem "G" 1);
      (alice, AddItem "G" "tea" 2 "green");
      (alice, SearchItems "e" None);
      (alice, AddItem "G" "jam" 1 "") ] in
  added_ids "alice" "G" reqs (fst (run reqs empty_list_store)) = [1; 2; 3].
Proof.
  intros reqs.
  refine (proj1 (proj2 (proj2 (add_item_ids_continue_count "alice" "G" reqs
                                 empty_list_store [] _ _))) _).
  - reflexivity.
  - repeat constructor.
  - reflexivity.
Defined.

(** ** C2 *)

(** C2.  On an empty list, three adds (ids 1, 2, 3), the removal of id 2
    and a fourth add: the fourth item receives id 3, the id of the
    surviving third item, and the list ends with two items of id 3. *)
Theorem id_reused_after_removal (h : Headers) (L a b c d : string)
    (s : Store) (ld : ListData.t) :
  dict_get L (user_lists_of (get_user_id h) s) = Some ld ->
  ListData.items ld = [] ->
  let reqs : list Request :=
    [ (h, AddItem L a 1 ""); (h, AddItem L b 1 ""); (h, AddItem L c 1 "");
      (h, RemoveItem L 2); (h, AddItem L d 1 "") ] in
  let third := Item.mk c 1 "" false 3 in
  let fourth := Item.mk d 1 "" false 3 in
  map returned_id (fst (run reqs s)) = [Some 1; Some 2; Some 3; None; Some 3] /\
  (exists m, fst (run reqs s) !! 3%nat = Some (Removed m (Item.mk b 1 "" false 2))) /\
  (exists m, fst (run reqs s) !! 4%nat = Some (Added m fourth)) /\
  items_of (get_user_id h) L (snd (run reqs s))
  = Some [Item.mk a 1 "" false 1; third; fourth] /\
  Item.id fourth = Item.id third.
Proof.
  intros Hld Hnil reqs third fourth. subst reqs third fourth.
  set (u := get_user_id h).
  assert (fst (run [ (h, AddItem L a 1 ""); (h, AddItem L b 1 "");
                     (h, AddItem L c 1 ""); (h, RemoveItem L 2);
                     (h, AddItem L d 1 "") ] s)
          = [ Added ("Item '" +:+ a +:+ "' added to list '" +:+ L +:+ "'")
                (Item.mk a 1 "" false 1);
              Added ("Item '" +:+ b +:+ "' added to list '" +:+ L +:+ "'")
                (Item.mk b 1 "" false 2);
              Added ("Item '" +:+ c +:+ "' added to list '" +:+ L +:+ "'")
                (Item.mk c 1 "" false 3);
              Removed ("Item removed from list '" +:+ L +:+ "'")
                (Item.mk b 1 "" false 2);
              Added ("Item '" +:+ d +:+ "' added to list '" +:+ L +:+ "'")
                (Item.mk d 1 "" false 3) ]
          /\ snd (run [ (h, AddItem L a 1 ""); (h, AddItem L b 1 "");
                        (h, AddItem L c 1 ""); (h, RemoveItem L 2);
                        (h, AddItem L d 1 "") ] s)
             = with_items u L [ Item.mk a 1 "" false 1; Item.mk c 1 "" false 3;
                                Item.mk d 1 "" false 3 ] ld s) as [Hr Hs].
  { rewrite !run_cons. unfold run, exec.
    rewrite (add_item_to_list_existing h L a 1 "" s ld) by done.
    rewrite Hnil. simpl fst; simpl snd. fold u.
    erewrite add_item_to_list_existing by apply with_items_get.
    simpl fst; simpl snd. fold u. rewrite with_items_twice.
    erewrite add_item_to_list_existing by apply with_items_get.
    simpl fst; simpl snd. fold u. rewrite with_items_twice.
    erewrite remove_item_from_list_found;
      [|apply with_items_get|reflexivity].
    simpl fst; simpl snd. fold u. rewrite with_items_twice.
    erewrite add_item_to_list_existing by apply with_items_get.
    simpl fst; simpl snd. fold u. rewrite with_items_twice.
    done. }
  rewrite Hr, Hs, with_items_items_of. simpl.
  repeat split; eauto.
Qed.

Lemma id_reused_after_removal_witness :
  let s : Store := {[ "alice" := [("G", ListData.mk "G" "" [])] ]} in
  let reqs : list Request :=
    [ (alice, AddItem "G" "milk" 1 ""); (alice, AddItem "G" "eggs" 1 "");
      (alice, AddItem "G" "tea" 1 ""); (alice, RemoveItem "G" 2);
      (alice, AddItem "G" "jam" 1 "") ] in
  items_of "alice" "G" (snd (run reqs s))
  = Some [ Item.mk "milk" 1 "" false 1; Item.mk "tea" 1 "" false 3;
           Item.mk "jam" 1 "" false 3 ].
Proof.
  intros s reqs.
  refine (proj1 (proj2 (proj2 (proj2
    (id_reused_after_removal alice "G" "milk" "eggs" "tea" "jam" s
       (ListData.mk "G" "" []) _ _))))).
  - reflexivity.
  - reflexivity.
Defined.

(** ** C3 *)

(** C3.  [create_list] with a name the caller's collection already has
    fails with [success: false], whatever the description, and the store
    after the call is the store before it: the existing record, its items
    and the rest of the collection are untouched. *)
Theorem create_list_existing_name (h : Headers) (name description : string)
    (s : Store) (ul : UserLists) :
  s !! get_user_id h = Some ul ->
  dict_mem name ul = true ->
  create_list h name description s
  = (Failure ("List '" +:+ name +:+ "' already exists"), s) /\
  success (fst (create_list h name description s)) = false /\
  dict_get name (user_lists_of (get_user_id h)
                   (snd (create_list h name description s)))
  = dict_get name ul.
Proof.
  intros Hs Hmem.
  assert (create_list h name description s
          = (Failure ("List '" +:+ name +:+ "' already exists"), s)) as E.
  { unfold create_list, get_user_lists. cbv zeta. rewrite Hs.
    cbv beta iota. by rewrite Hmem. }
  rewrite E. unfold user_lists_of. cbn [fst snd success]. by rewrite Hs.
Qed.

Lemma create_list_existing_name_witness :
  create_list alice "G" "again" one_item_store
  = (Failure "List 'G' already exists", one_item_store).
Proof.
  refine (proj1 (create_list_existing_name alice "G" "again" one_item_store
                   [("G", ListData.mk "G" "" [milk])] _ _)).
  - reflexivity.
  - reflexivity.
Defined.

(** ** C4 *)

Lemma set_completed_twice (x : Item.t) :
  let x' := Item.set_completed (negb (Item.completed x)) x in
  Item.set_completed (negb (Item.completed x')) x' = x.
Proof. destruct x as [? ? ? [] ?]; reflexivity. Qed.

(** C4.  When the list has an item with the id, one call of
    [toggle_item_completion] succeeds and flips the completed flag of the
    first such item [x]; a second call with the same arguments succeeds,
    returns [x] as it was and restores the store. *)
Theorem toggle_item_completion_involutive (h : Headers) (L : string)
    (item_id : Z) (s : Store) (ld : ListData.t) :
  let u := get_user_id h in
  dict_get L (user_lists_of u s) = Some ld ->
  (exists y, y ∈ ListData.items ld /\ Item.id y = item_id) ->
  exists l1 x l2 m1 m2,
    first_with_id item_id (ListData.items ld) l1 x l2 /\
    let x' := Item.set_completed (negb (Item.completed x)) x in
    let s1 := snd (toggle_item_completion h L item_id s) in
    fst (toggle_item_completion h L item_id s) = Toggled m1 x' /\
    Item.completed x' = negb (Item.completed x) /\
    items_of u L s1 = Some (l1 ++ x' :: l2) /\
    toggle_item_completion h L item_id s1 = (Toggled m2 x, s).
Proof.
  intros u Hld Hex.
  destruct (first_with_id_exists _ _ Hex) as (l1 & x & l2 & Hfirst).
  pose proof (toggle_by_id_first _ _ _ _ _ Hfirst) as Ht. simpl in Ht.
  set (x' := Item.set_completed (negb (Item.completed x)) x) in *.
  assert (first_with_id item_id (l1 ++ x' :: l2) l1 x' l2) as Hfirst'.
  { destruct Hfirst as (_ & Hl1 & Hx). by repeat split. }
  pose proof (toggle_by_id_first _ _ _ _ _ Hfirst') as Ht'. simpl in Ht'.
  pose proof (set_completed_twice x) as Hx2. simpl in Hx2. fold x' in Hx2.
  rewrite Hx2 in Ht'.
  exists l1, x, l2. do 2 eexists. split; [done|]. simpl.
  rewrite (toggle_item_completion_found h L item_id s ld x' (l1 ++ x' :: l2))
    by done.
  simpl. fold u. split; [done|]. split; [done|].
  split; [apply with_items_items_of|].
  erewrite toggle_item_completion_found; [|apply with_items_get|exact Ht'].
  fold u. rewrite with_items_twice. f_equal.
  destruct Hfirst as (<- & _ & _). by apply with_items_id.
Qed.

Lemma toggle_item_completion_involutive_witness :
  exists m,
    toggle_item_completion alice "G" 1
      (snd (toggle_item_completion alice "G" 1 one_item_store))
    = (Toggled m milk, one_item_store).
Proof.
  destruct (toggle_item_completion_involutive alice "G" 1 one_item_store
              (ListData.mk "G" "" [milk]))
    as (l1 & x & l2 & m1 & m2 & Hfirst & _ & _ & _ & H2).
  - reflexivity.
  - exists milk. split; [apply list_elem_of_here|reflexivity].
  - exists m2. rewrite H2. f_equal. f_equal.
    destruct (first_with_id_unique 1 [milk] l1 x l2 [] milk [])
      as (_ & -> & _); [exact Hfirst| |reflexivity].
    repeat split. constructor.
Defined.

(** ** C5 *)

Lemma completed_count_spec (items : list Item.t) :
  py_sum (map (fun _ => 1) (List.filter Item.completed items))
  = Z.of_nat (length (filter (fun it => Item.completed it = true) items)).
Proof.
  rewrite py_sum_ones. unfold len. f_equal. f_equal.
  induction items as [|it items IH]; [done|]. simpl.
  rewrite filter_cons. case_decide as Hc.
  - rewrite Hc. simpl. by f_equal.
  - by destruct (Item.completed it).
Qed.

(** C5.  [get_lists] always succeeds and returns one summary per list of
    the caller, in collection order; each summary carries the list's name
    and description, [item_count] is the length of the item sequence and
    [completed_count] the number of items whose completed flag is true.
    The caller's collection is left as it was. *)
Theorem get_lists_counts (h : Headers) (s : Store) :
  let ul := user_lists_of (get_user_id h) s in
  exists lists,
    fst (get_lists h s) = Lists lists (Z.of_nat (length ul)) /\
    success (fst (get_lists h s)) = true /\
    user_lists_of (get_user_id h) (snd (get_lists h s)) = ul /\
    Forall2
      (fun (entry : string * ListData.t) (sm : Summary.t) =>
         Summary.name sm = fst entry /\
         Summary.description sm = ListData.description (snd entry) /\
         Summary.item_count sm
         = Z.of_nat (length (ListData.items (snd entry))) /\
         Summary.completed_count sm
         = Z.of_nat (length (filter (fun it => Item.completed it = true)
                               (ListData.items (snd entry)))))
      ul lists.
Proof.
  intros ul. unfold get_lists. store_simpl. fold ul.
  exists (map summary ul). simpl. unfold len. rewrite length_map.
  split; [done|]. split; [done|].
  split; [by rewrite user_lists_of_insert_eq|].
  clearbody ul. induction ul as [|[n ld] ul IH]; simpl; constructor; [|done].
  simpl. repeat split. apply completed_count_spec.
Qed.

(** ** C6 *)

(** C6.  When the list has an item with the id,
    [remove_item_from_list] succeeds: it takes out one item, the first in
    sequence order with the id, and returns it; the items before and
    after it stay, in order.  When no later item carries the same id, an
    immediately repeated call fails with the not-found message and
    changes nothing. *)
Theorem remove_item_first_match (h : Headers) (L : string) (item_id : Z)
    (s : Store) (ld : ListData.t) :
  let u := get_user_id h in
  dict_get L (user_lists_of u s) = Some ld ->
  (exists y, y ∈ ListData.items ld /\ Item.id y = item_id) ->
  exists l1 x l2,
    first_with_id item_id (ListData.items ld) l1 x l2 /\
    let s1 := snd (remove_item_from_list h L item_id s) in
    fst (remove_item_from_list h L item_id s)
    = Removed ("Item removed from list '" +:+ L +:+ "'") x /\
    success (fst (remove_item_from_list h L item_id s)) = true /\
    s1 = with_items u L (l1 ++ l2) ld s /\
    items_of u L s1 = Some (l1 ++ l2) /\
    S (length (l1 ++ l2)) = length (ListData.items ld) /\
    (id_free item_id l2 ->
     remove_item_from_list h L item_id s1
     = (Failure ("Item with ID " +:+ pretty item_id +:+ " not found in list '"
                 +:+ L +:+ "'"), s1)).
Proof.
  intros u Hld Hex.
  destruct (first_with_id_exists _ _ Hex) as (l1 & x & l2 & Hfirst).
  exists l1, x, l2. split; [done|].
  assert (pop_by_id item_id (ListData.items ld) = Some (x, l1 ++ l2)) as Hpop.
  { apply pop_by_id_Some. by exists l1, l2. }
  rewrite (remove_item_from_list_found h L item_id s ld x (l1 ++ l2)) by done.
  cbn [fst snd success]. fold u. do 3 (split; [done|]). split; [|split].
  - apply with_items_items_of.
  - destruct Hfirst as (-> & _ & _). rewrite !length_app. simpl. lia.
  - intros Hl2.
    erewrite remove_item_from_list_not_found; [done|apply with_items_get|].
    apply pop_by_id_None. simpl. destruct Hfirst as (_ & Hl1 & _).
    by apply Forall_app.
Qed.

(** On the list with ids 1, 3, 3: removing id 3 takes out the first of the
    two items of id 3 and keeps the second; removing id 1 twice fails the
    second time. *)
Lemma remove_item_first_match_witness :
  (fst (remove_item_from_list alice "G" 3 collided_store)
   = Removed "Item removed from list 'G'" (Item.mk "tea" 1 "" false 3) /\
   items_of "alice" "G"
     (snd (remove_item_from_list alice "G" 3 collided_store))
   = Some [milk; Item.mk "jam" 1 "" false 3]) /\
  remove_item_from_list alice "G" 1
    (snd (remove_item_from_list alice "G" 1 collided_store))
  = (Failure "Item with ID 1 not found in list 'G'",
     snd (remove_item_from_list alice "G" 1 collided_store)).
Proof.
  pose (tea := Item.mk "tea" 1 "" false 3).
  pose (jam := Item.mk "jam" 1 "" false 3).
  split.
  - destruct (remove_item_first_match alice "G" 3 collided_store
                (ListData.mk "G" "" [milk; tea; jam]))
      as (l1 & x & l2 & Hfirst & Hr & _ & _ & Hit & _).
    + reflexivity.
    + exists jam. split; [|reflexivity].
      apply list_elem_of_further, list_elem_of_further, list_elem_of_here.
    + destruct (first_with_id_unique 3 [milk; tea; jam] l1 x l2
                  [milk] tea [jam]) as (-> & -> & ->); [exact Hfirst| |].
      * split; [reflexivity|]. split; [|reflexivity].
        constructor; [discriminate|constructor].
      * split; [exact Hr|exact Hit].
  - destruct (remove_item_first_match alice "G" 1 collided_store
                (ListData.mk "G" "" [milk; tea; jam]))
      as (l1 & x & l2 & Hfirst & _ & _ & _ & _ & _ & Hagain).
    + reflexivity.
    + exists milk. split; [apply list_elem_of_here|reflexivity].
    + destruct (first_with_id_unique 1 [milk; tea; jam] l1 x l2
                  [] milk [tea; jam]) as (-> & -> & ->); [exact Hfirst| |].
      * split; [reflexivity|]. split; [constructor|reflexivity].
      * apply Hagain. repeat constructor; discriminate.
Defined.

(** ** C7 *)

(** C7, amended.  [search_items] always succeeds and leaves the caller's
    collection as it was.  When a non-empty [list_name] is given and names
    a list of the caller, only that list's items are searched; in every
    other case ([list_name] absent, empty, or not a list of the caller)
    all lists of the caller are searched, in collection order. *)
Theorem search_items_scope (h : Headers) (query : string)
    (list_name : option string) (s : Store) :
  let u := get_user_id h in
  let ul := user_lists_of u s in
  exists results,
    fst (search_items h query list_name s) = Found query results (len results) /\
    success (fst (search_items h query list_name s)) = true /\
    user_lists_of u (snd (search_items h query list_name s)) = ul /\
    (forall n ld, list_name = Some n -> n <> "" -> dict_get n ul = Some ld ->
       results
       = map (pair n) (List.filter (item_matches query) (ListData.items ld))) /\
    (list_name = None \/ list_name = Some "" \/
     (exists n, list_name = Some n /\ dict_get n ul = None) ->
     results = concat (map (search_list query) ul)).
Proof.
  intros u ul. unfold search_items. store_simpl. fold u ul.
  eexists. split; [reflexivity|]. split; [done|].
  split; [apply user_lists_of_insert_eq|]. split.
  - intros n ld -> Hn Hld. simpl. rewrite Hld.
    destruct n; [done|]. simpl. by rewrite app_nil_r.
  - intros [->|[->|(n & -> & Hn)]]; simpl; [done..|].
    rewrite Hn. by destruct (str_truthy n).
Qed.

Lemma search_items_scope_witness :
  exists results,
    fst (search_items alice "milk" (Some "B") unnamed_list_store)
    = Found "milk" results 1 /\
    results = [("B", Item.mk "oat milk" 1 "" false 1)].
Proof.
  destruct (search_items_scope alice "milk" (Some "B") unnamed_list_store)
    as (results & Hr & _ & _ & Hscoped & _).
  exists results.
  assert (results = [("B", Item.mk "oat milk" 1 "" false 1)]) as E.
  { apply (Hscoped "B" (ListData.mk "B" "" [Item.mk "oat milk" 1 "" false 1]));
      [reflexivity|discriminate|reflexivity]. }
  rewrite Hr, E. split; reflexivity.
Defined.

(** C7 as stated fails for the list named by the empty string: the name
    is given and exists, yet the search also returns the item of list B. *)
Lemma search_items_scope_counterexample :
  dict_get "" (user_lists_of "alice" unnamed_list_store)
  = Some (ListData.mk "" "" [milk]) /\
  fst (search_items alice "milk" (Some "") unnamed_list_store)
  = Found "milk" [("", milk); ("B", Item.mk "oat milk" 1 "" false 1)] 2 /\
  fst (search_items alice "milk" (Some "") unnamed_list_store)
  <> Found "milk"
       (map (pair "") (List.filter (item_matches "milk") [milk])) 1.
Proof. split; [reflexivity|]. split; [by vm_compute|]. by vm_compute. Qed.

(** ** C8 *)

Lemma item_matches_spec (query : string) (it : Item.t) :
  item_matches query it = true <->
  is_substring (lower query) (lower (Item.text it)) \/
  is_substring (lower query) (lower (Item.notes it)).
Proof.
  unfold item_matches, is_substring.
  rewrite orb_true_iff, !str_in_spec. done.
Qed.




(** The lists a search looks at are lists of the collection. *)
Lemma lists_to_search_subset (list_name : option string) (ul : UserLists)
    (n : string) (ld : ListData.t) :
  (n, ld) ∈ lists_to_search list_name ul -> (n, ld) ∈ ul.
Proof.
  unfold lists_to_search. destruct list_name as [k|]; [|done].
  destruct (str_truthy k); [|done].
  destruct (dict_get k ul) as [v|] eqn:E; [|done].
  intros ->%list_elem_of_singleton.
  induction ul as [|[k' v'] ul IH]; simpl in E; [done|].
  destruct (String.eqb_spec k' k) as [->|Hne].
  - injection E as ->. apply list_elem_of_here.
  - apply list_elem_of_further. by apply IH.
Qed.





(** ** C9 *)

Lemma dict_mem_false_keys {V} (n : string) (d : dict V) :
  dict_mem n d = false -> forall k v, (k, v) ∈ d -> k <> n.
Proof.
  unfold dict_mem. induction d as [|[k' v'] d IH]; intros Hm k v Hin.
  - by apply not_elem_of_nil in Hin.
  - simpl in Hm. destruct (String.eqb_spec k' n) as [->|Hne]; [done|].
    apply elem_of_cons in Hin as [[= -> ->]|Hin]; [done|]. by eapply IH.
Qed.

(** C9.  For callers with different user ids, a call made as A leaves B's
    entry of the store as it was, so every later call of B (in particular
    [get_lists]) answers as it would have without A's call; and what A's
    call returns and leaves in A's collection is the same in any store
    with that collection for A, whatever other users hold.  In particular
    when B has no list named Groceries, B's [get_lists] shows none after A
    creates one.  A request without the [x-user-id] header is the user
    ["anonymous"]. *)
Theorem user_isolation (hA hB : Headers) (c : Call) (s : Store) :
  get_user_id hA <> get_user_id hB ->
  let A := get_user_id hA in
  let B := get_user_id hB in
  snd (exec (hA, c) s) !! B = s !! B /\
  (forall c', fst (exec (hB, c') (snd (exec (hA, c) s)))
              = fst (exec (hB, c') s)) /\
  (forall s', user_lists_of A s' = user_lists_of A s ->
     fst (exec (hA, c) s') = fst (exec (hA, c) s) /\
     user_lists_of A (snd (exec (hA, c) s'))
     = user_lists_of A (snd (exec (hA, c) s))) /\
  (dict_mem "Groceries" (user_lists_of B s) = false ->
   forall description,
   exists lists n,
     fst (get_lists hB (snd (create_list hA "Groceries" description s)))
     = Lists lists n /\
     forall sm, sm ∈ lists -> Summary.name sm <> "Groceries") /\
  (hB !! "x-user-id" = None -> B = "anonymous").
Proof.
  intros Hne A B.
  assert (forall c0, user_lists_of B (snd (exec (hA, c0) s))
                     = user_lists_of B s) as Hview.
  { intros c0. unfold user_lists_of. by rewrite exec_frame. }
  split; [by apply exec_frame|]. split; [|split; [|split]].
  - intros c'. by apply exec_agree.
  - intros s' E. by apply exec_agree.
  - intros Hm description.
    pose proof (Hview (CreateList "Groceries" description)) as Hv.
    simpl in Hv. unfold get_lists. store_simpl. fold B. rewrite Hv.
    do 2 eexists. split; [reflexivity|].
    intros sm Hsm. apply list_elem_of_fmap in Hsm as ([k ld] & -> & Hin).
    simpl. by eapply dict_mem_false_keys.
  - intros Hnone. unfold B, get_user_id. by rewrite Hnone.
Qed.

Lemma user_isolation_witness :
  fst (get_lists no_headers
         (snd (create_list alice "Groceries" "" one_item_store)))
  = fst (get_lists no_headers one_item_store).
Proof.
  refine (proj1 (proj2 (user_isolation alice no_headers
                          (CreateList "Groceries" "") one_item_store _))
            GetLists).
  by vm_compute.
Defined.

(** ** C10 *)

Lemma toggle_by_id_Some item_id items z its :
  toggle_by_id item_id items = Some (z, its) ->
  exists l1 x l2,
    first_with_id item_id items l1 x l2 /\
    z = Item.set_completed (negb (Item.completed x)) x /\
    its = l1 ++ z :: l2.
Proof.
  intros Ht.
  destruct (find_id item_id items 0) as [i|] eqn:E.
  - apply find_id_Some in E as (l1 & x & l2 & Hfirst & _).
    pose proof (toggle_by_id_first _ _ _ _ _ Hfirst) as Ht'. simpl in Ht'.
    rewrite Ht in Ht'. injection Ht' as -> ->. by exists l1, x, l2.
  - apply find_id_None, toggle_by_id_None in E. congruence.
Qed.

(** One scan keeps every id in place and every shadowed item as it is. *)
Lemma toggle_by_id_shadowed item_id items z its :
  toggle_by_id item_id items = Some (z, its) ->
  map Item.id its = map Item.id items /\
  forall j, shadowed items j -> its !! j = items !! j.
Proof.
  intros (l1 & x & l2 & (-> & Hl1 & Hx) & -> & ->)%toggle_by_id_Some. split.
  - by rewrite !map_app.
  - intros j (i & x0 & y & Hij & Hi & Hj & Hid).
    destruct (decide (j = length l1)) as [->|Hj'].
    + rewrite list_lookup_middle in Hj by done. injection Hj as <-.
      rewrite lookup_app_l in Hi by done.
      unfold id_free in Hl1. rewrite Forall_forall in Hl1.
      exfalso. apply (Hl1 x0); [|congruence].
      by eapply list_elem_of_lookup_2.
    + destruct (decide (j < length l1)%nat).
      * by rewrite !lookup_app_l by done.
      * rewrite !lookup_app_r by lia.
        destruct (j - length l1)%nat eqn:E; [lia|done].
Qed.

Lemma shadowed_ids (items items' : list Item.t) (j : nat) :
  map Item.id items' = map Item.id items ->
  shadowed items j -> shadowed items' j.
Proof.
  intros Hids (i & x & y & Hij & Hi & Hj & Hid).
  assert (forall k v, items !! k = Some v ->
            exists v', items' !! k = Some v' /\ Item.id v' = Item.id v) as Hk.
  { intros k v Hv.
    assert (map Item.id items' !! k = Some (Item.id v)) as H'
      by (by rewrite Hids, list_lookup_fmap, Hv).
    rewrite list_lookup_fmap in H'.
    destruct (items' !! k) as [v'|]; [|done]. injection H' as H'. eauto. }
  destruct (Hk i x Hi) as (x' & Hi' & Hx'), (Hk j y Hj) as (y' & Hj' & Hy').
  exists i, x', y'. repeat split; try done. congruence.
Qed.

(** What one [toggle_item_completion] does to a given list of a given
    user: nothing, or one scan of its items. *)
Lemma toggle_item_completion_items_of h l item_id s u L items :
  items_of u L s = Some items ->
  exists items',
    items_of u L (snd (toggle_item_completion h l item_id s)) = Some items' /\
    (items' = items \/ exists z, toggle_by_id item_id items = Some (z, items')).
Proof.
  intros Hit.
  destruct (decide (get_user_id h = u)) as [Hu|Hne]; [subst u|].
  2: { exists items. split; [|by left].
       change (toggle_item_completion h l item_id s)
         with (exec (h, ToggleItem l item_id) s).
       unfold items_of, user_lists_of in *. by rewrite exec_frame. }
  unfold items_of in Hit.
  destruct (dict_get L (user_lists_of (get_user_id h) s)) as [ld|] eqn:Hld;
    [|done].
  injection Hit as <-.
  destruct (dict_get l (user_lists_of (get_user_id h) s)) as [ld'|] eqn:Hl.
  2: { exists (ListData.items ld). split; [|by left].
       unfold toggle_item_completion. store_simpl. rewrite Hl. simpl.
       unfold items_of. store_simpl. by rewrite Hld. }
  destruct (toggle_by_id item_id (ListData.items ld')) as [[z its]|] eqn:Ht.
  - rewrite (toggle_item_completion_found h l item_id s ld' z its) by done.
    simpl. destruct (decide (l = L)) as [->|Hne].
    + rewrite Hld in Hl. injection Hl as <-.
      exists its. split; [apply with_items_items_of|]. right. eauto.
    + exists (ListData.items ld). split; [|by left].
      unfold items_of, with_items. store_simpl.
      by rewrite dict_get_set_ne, Hld.
  - rewrite (toggle_item_completion_not_found h l item_id s ld') by done.
    exists (ListData.items ld). split; [|by left].
    unfold items_of. simpl. by rewrite Hld.
Qed.

(** No trace of toggle calls changes a shadowed item. *)
Lemma run_toggles_shadowed u L reqs : forall s items,
  items_of u L s = Some items ->
  Forall (fun req => is_toggle req = true) reqs ->
  exists items',
    items_of u L (snd (run reqs s)) = Some items' /\
    map Item.id items' = map Item.id items /\
    forall j, shadowed items j -> items' !! j = items !! j.
Proof.
  induction reqs as [|[h c] reqs IH]; intros s items Hit Hall.
  - exists items. by repeat split.
  - inversion Hall as [|? ? Hreq Hrest]; subst.
    destruct c; try discriminate Hreq.
    rewrite run_cons. simpl.
    destruct (toggle_item_completion_items_of h list_name item_id s u L items
                Hit) as (items1 & Hit1 & Hstep).
    destruct (IH _ _ Hit1 Hrest) as (items' & Hit' & Hids' & Hsh').
    exists items'. split; [done|].
    destruct Hstep as [->|(z & Ht)]; [done|].
    apply toggle_by_id_shadowed in Ht as [Hids1 Hsh1]. split; [congruence|].
    intros j Hj. rewrite Hsh'; [by apply Hsh1|].
    by eapply shadowed_ids.
Qed.

(** C10.  When the first item with the id is [x], at the end of [l1], a
    call of [toggle_item_completion] flips [x] alone and returns it: the
    items before it and all items after it, later items with the same id
    among them, stay as they are.  And no trace of toggle calls, with any
    ids and by any callers, changes an item that has an earlier item with
    the same id. *)
Theorem toggle_first_match_only (h : Headers) (L : string) (item_id : Z)
    (s : Store) (ld : ListData.t) (l1 : list Item.t) (x : Item.t)
    (l2 : list Item.t) :
  let u := get_user_id h in
  dict_get L (user_lists_of u s) = Some ld ->
  first_with_id item_id (ListData.items ld) l1 x l2 ->
  let x' := Item.set_completed (negb (Item.completed x)) x in
  (exists m, fst (toggle_item_completion h L item_id s) = Toggled m x') /\
  items_of u L (snd (toggle_item_completion h L item_id s))
  = Some (l1 ++ x' :: l2) /\
  (forall (reqs : list Request) (j : nat) (y : Item.t),
     Forall (fun req => is_toggle req = true) reqs ->
     ListData.items ld !! j = Some y ->
     shadowed (ListData.items ld) j ->
     exists items',
       items_of u L (snd (run reqs s)) = Some items' /\
       items' !! j = Some y).
Proof.
  intros u Hld Hfirst x'.
  pose proof (toggle_by_id_first _ _ _ _ _ Hfirst) as Ht. simpl in Ht.
  fold x' in Ht.
  rewrite (toggle_item_completion_found h L item_id s ld x' (l1 ++ x' :: l2))
    by done.
  simpl. fold u. split; [eauto|]. split; [apply with_items_items_of|].
  intros reqs j y Hall Hj Hsh.
  destruct (run_toggles_shadowed u L reqs s (ListData.items ld))
    as (items' & Hit' & _ & Hkeep); [|done|].
  { unfold items_of. by rewrite Hld. }
  exists items'. split; [done|]. by rewrite Hkeep.
Qed.

Lemma toggle_first_match_only_witness :
  items_of "alice" "G" (snd (toggle_item_completion alice "G" 3 collided_store))
  = Some [ milk; Item.mk "tea" 1 "" true 3; Item.mk "jam" 1 "" false 3 ].
Proof.
  refine (proj1 (proj2 (toggle_first_match_only alice "G" 3 collided_store
    (ListData.mk "G" "" [ milk; Item.mk "tea" 1 "" false 3;
                          Item.mk "jam" 1 "" false 3 ])
    [milk] (Item.mk "tea" 1 "" false 3) [Item.mk "jam" 1 "" false 3] _ _))).
  - reflexivity.
  - split; [reflexivity|]. split; [|reflexivity].
    constructor; [discriminate|constructor].
Defined.

(** ** The end-to-end scenario *)

(** Create a list, add two items, complete the first, summarise, remove
    the second and read the list back, as a caller without headers. *)
Example end_to_end_scenario :
  let milk2 := Item.mk "Milk" 2 "" false 1 in
  let eggs := Item.mk "Eggs" 1 "" false 2 in
  let milk2_done := Item.mk "Milk" 2 "" true 1 in
  fst (run [ (no_headers, CreateList "Groceries" "");
             (no_headers, AddItem "Groceries" "Milk" 2 "");
             (no_headers, AddItem "Groceries" "Eggs" 1 "");
             (no_headers, ToggleItem "Groceries" 1);
             (no_headers, GetLists);
             (no_headers, RemoveItem "Groceries" 2);
             (no_headers, GetListItems "Groceries") ] user_lists_data)
  = [ Created "List 'Groceries' created successfully"
        (ListData.mk "Groceries" "" []);
      Added "Item 'Milk' added to list 'Groceries'" milk2;
      Added "Item 'Eggs' added to list 'Groceries'" eggs;
      Toggled "Item marked as completed" milk2_done;
      Lists [Summary.mk "Groceries" "" 2 1] 1;
      Removed "Item removed from list 'Groceries'" eggs;
      ListItems "Groceries" [milk2_done] 1 ].
Proof. by vm_compute. Qed.

(** * Further properties of the tools *)

(** ** Steps *)

Lemma dict_mem_false {V} (k : string) (d : dict V) :
  dict_mem k d = false <-> dict_get k d = None.
Proof. unfold dict_mem. destruct (dict_get k d); split; congruence. Qed.

Lemma dict_set_absent {V} (k : string) (v : V) (d : dict V) :
  dict_get k d = None -> dict_set k v d = d ++ [(k, v)].
Proof.
  induction d as [|[k' v'] d IH]; simpl; [done|].
  destruct (String.eqb k' k); [done|]. intros H. by rewrite IH.
Qed.

(** Every call moves the caller's collection by a step of its tool. *)
Lemma exec_step (h : Headers) (c : Call) (s : Store) :
  let u := get_user_id h in
  lists_step c (user_lists_of u s) (user_lists_of u (snd (exec (h, c) s))).
Proof.
  intros u. subst u.
  destruct c; unfold exec, create_list, add_item_to_list, get_lists,
    get_list_items, remove_item_from_list, delete_list,
    toggle_item_completion, search_items; store_simpl.
  - destruct (dict_mem name _) eqn:Hm; simpl; store_simpl; [constructor|].
    apply dict_mem_false in Hm. rewrite dict_set_absent by done.
    by constructor.
  - destruct (dict_get list_name _) as [ld|] eqn:Hl; simpl; store_simpl;
      [by constructor|constructor].
  - simpl. store_simpl. constructor.
  - destruct (dict_get list_name _); simpl; store_simpl; constructor.
  - destruct (dict_get list_name _) as [ld|] eqn:Hl; simpl; store_simpl;
      [|constructor].
    destruct (pop_by_id _ _) as [[x rest]|] eqn:Hp; simpl; store_simpl;
      [|constructor].
    apply pop_by_id_Some in Hp as (l1 & l2 & Hfirst & ->).
    by econstructor.
  - destruct (dict_get list_name _) as [ld|] eqn:Hl; simpl; store_simpl;
      [by econstructor|constructor].
  - destruct (dict_get list_name _) as [ld|] eqn:Hl; simpl; store_simpl;
      [|constructor].
    destruct (toggle_by_id _ _) as [[z its]|] eqn:Ht; simpl; store_simpl;
      [|constructor].
    apply toggle_by_id_Some in Ht as (l1 & x & l2 & Hfirst & -> & ->).
    by econstructor.
  - simpl. store_simpl. constructor.
Qed.

(** ** Dictionaries, continued *)

Section DictMore.
Context {V : Type}.
Implicit Types (d : dict V) (k : string) (v : V).

Lemma dict_get_None_keys k d : dict_get k d = None <-> k ∉ map fst d.
Proof.
  induction d as [|[k' v'] d IH]; simpl.
  - split; [intros _; apply not_elem_of_nil|done].
  - rewrite not_elem_of_cons. destruct (String.eqb_spec k' k) as [->|Hne].
    + split; [done|]. by intros [? _].
    + rewrite IH. split; [by split|by intros [_ ?]].
Qed.

Lemma dict_get_elem k v d : dict_get k d = Some v -> (k, v) ∈ d.
Proof.
  induction d as [|[k' v'] d IH]; simpl; [done|].
  destruct (String.eqb_spec k' k) as [->|Hne].
  - intros [= ->]. apply list_elem_of_here.
  - intros H. apply list_elem_of_further. by apply IH.
Qed.

Lemma dict_get_app_l k v d d' :
  dict_get k d = Some v -> dict_get k (d ++ d') = Some v.
Proof.
  induction d as [|[k' v'] d IH]; simpl; [done|].
  by destruct (String.eqb k' k).
Qed.

Lemma dict_get_app_r k d d' :
  dict_get k d = None -> dict_get k (d ++ d') = dict_get k d'.
Proof.
  induction d as [|[k' v'] d IH]; simpl; [done|].
  by destruct (String.eqb k' k).
Qed.

Lemma dict_set_keys k v d :
  is_Some (dict_get k d) -> map fst (dict_set k v d) = map fst d.
Proof.
  induction d as [|[k' v'] d IH]; simpl.
  - by intros [? ?].
  - destruct (String.eqb_spec k' k) as [->|Hne]; simpl; [done|].
    intros H. by rewrite IH.
Qed.

Lemma Forall_dict_set (P : string * V -> Prop) k v d :
  Forall P d -> P (k, v) -> Forall P (dict_set k v d).
Proof.
  intros Hd Hkv. induction Hd as [|[k' v'] d Hx Hd IH]; simpl.
  - by repeat constructor.
  - destruct (String.eqb k' k); by constructor.
Qed.

Lemma Forall_dict_del (P : string * V -> Prop) k d :
  Forall P d -> Forall P (dict_del k d).
Proof.
  intros Hd. induction Hd as [|[k' v'] d Hx Hd IH]; simpl; [constructor|].
  destruct (String.eqb k' k); [done|by constructor].
Qed.

Lemma dict_del_absent k d : dict_get k d = None -> dict_del k d = d.
Proof.
  induction d as [|[k' v'] d IH]; simpl; [done|].
  destruct (String.eqb k' k); [done|]. intros H. by rewrite IH.
Qed.

Lemma filter_keys_absent k (d : list (string * V)) :
  k ∉ map fst d -> filter (fun e : string * V => fst e <> k) d = d.
Proof.
  induction d as [|[k' v'] d IH]; [done|].
  intros [Hne Hd]%not_elem_of_cons. rewrite filter_cons.
  rewrite decide_True by (simpl in *; congruence). by rewrite IH.
Qed.

(** Deleting a key of a dictionary without repeated keys drops the one
    entry of that key and keeps the others in order. *)
Lemma dict_del_filter k (d : list (string * V)) :
  NoDup (map fst d) ->
  dict_del k d = filter (fun e : string * V => fst e <> k) d.
Proof.
  induction d as [|[k' v'] d IH]; [done|].
  intros [Hk' Hd]%NoDup_cons. rewrite filter_cons.
  cbn [dict_del fst].
  destruct (String.eqb_spec k' k) as [->|Hne].
  - rewrite decide_False by (by intros ?). by rewrite filter_keys_absent.
  - rewrite decide_True by done. by rewrite IH.
Qed.

Lemma dict_get_del_eq k d : NoDup (map fst d) -> dict_get k (dict_del k d) = None.
Proof.
  induction d as [|[k' v'] d IH]; simpl; [done|].
  intros [Hk' Hd]%NoDup_cons.
  destruct (String.eqb_spec k' k) as [->|Hne].
  - by apply dict_get_None_keys.
  - simpl. destruct (String.eqb_spec k' k); [done|]. by apply IH.
Qed.

Lemma dict_del_app_last k v d :
  dict_get k d = None -> dict_del k (d ++ [(k, v)]) = d.
Proof.
  induction d as [|[k' v'] d IH]; simpl.
  - by rewrite String.eqb_refl.
  - destruct (String.eqb k' k); [done|]. intros H. by rewrite IH.
Qed.
End DictMore.

(** ** Reachable stores *)

Lemma run_app reqs1 reqs2 s :
  run (reqs1 ++ reqs2) s
  = (fst (run reqs1 s) ++ fst (run reqs2 (snd (run reqs1 s))),
     snd (run reqs2 (snd (run reqs1 s)))).
Proof.
  revert s. induction reqs1 as [|req reqs1 IH]; intros s.
  - simpl. by destruct (run reqs2 s).
  - rewrite <- app_comm_cons, !run_cons, IH. done.
Qed.

Lemma run_singleton req s : run [req] s = ([fst (exec req s)], snd (exec req s)).
Proof. by rewrite run_cons. Qed.

Lemma reachable_init : reachable user_lists_data.
Proof. by exists []. Qed.

Lemma reachable_exec req s : reachable s -> reachable (snd (exec req s)).
Proof.
  intros [reqs ->]. exists (reqs ++ [req]).
  by rewrite run_app, run_singleton.
Qed.

Lemma reachable_run reqs s : reachable s -> reachable (snd (run reqs s)).
Proof.
  revert s. induction reqs as [|req reqs IH]; intros s Hs; [done|].
  rewrite run_cons. simpl. by apply IH, reachable_exec.
Qed.

(** Induction over the requests that lead to a reachable store. *)
Lemma reachable_induction (P : Store -> Prop) :
  P user_lists_data ->
  (forall req s, reachable s -> P s -> P (snd (exec req s))) ->
  forall s, reachable s -> P s.
Proof.
  intros H0 Hstep s [reqs ->].
  induction reqs as [|req reqs IH] using rev_ind; [done|].
  rewrite run_app, run_singleton. simpl.
  apply Hstep; [|done]. by exists reqs.
Qed.

(** A property of collections that the empty collection has and every
    step keeps holds of every user's collection in every reachable
    store. *)
Lemma reachable_lists_invariant (P : UserLists -> Prop) :
  P [] ->
  (forall c ul ul', lists_step c ul ul' -> P ul -> P ul') ->
  forall s, reachable s -> forall u, P (user_lists_of u s).
Proof.
  intros Hnil Hstep s Hs.
  induction Hs as [|[h c] s Hs IH] using reachable_induction; intros u.
  - unfold user_lists_of, user_lists_data. by rewrite lookup_empty.
  - destruct (decide (get_user_id h = u)) as [<-|Hne].
    + eapply Hstep; [apply exec_step|apply IH].
    + unfold user_lists_of. rewrite exec_frame by done. apply IH.
Qed.

(** ** List names *)

Lemma lists_step_wf c ul ul' : lists_step c ul ul' -> wf_lists ul -> wf_lists ul'.
Proof.
  assert (forall l ld its, wf_lists ul -> dict_get l ul = Some ld ->
            wf_lists (dict_set l (ListData.set_items its ld) ul)) as Hset.
  { intros l ld its [Hnd Hnames] Hl. split.
    - by rewrite dict_set_keys by (by eexists).
    - apply Forall_dict_set; [done|]. simpl.
      rewrite Forall_forall in Hnames.
      apply (Hnames (l, ld)). by apply dict_get_elem. }
  intros Hstep Hwf. destruct Hstep; eauto.
  - destruct Hwf as [Hnd Hnames]. split.
    + rewrite map_app. simpl. apply NoDup_app. split; [done|].
      split; [|apply NoDup_singleton].
      intros k Hk ->%list_elem_of_singleton.
      by apply dict_get_None_keys in Hk.
    + apply Forall_app. split; [done|]. by repeat constructor.
  - destruct Hwf as [Hnd Hnames]. split.
    + rewrite dict_del_filter by done.
      assert (forall d : list (string * ListData.t),
                NoDup (map fst d) ->
                NoDup (map fst (filter (fun e : string * ListData.t =>
                                          fst e <> l) d))) as Hf; [|by apply Hf].
      induction d as [|[k v] d IHd]; [done|].
      intros [Hk Hd]%NoDup_cons. rewrite filter_cons.
      case_decide; [|by apply IHd]. simpl. apply NoDup_cons.
      split; [|by apply IHd].
      intros Hin. apply Hk.
      apply list_elem_of_fmap in Hin as ([k' v'] & -> & Hin).
      apply list_elem_of_filter in Hin as [_ Hin].
      apply list_elem_of_fmap. by exists (k', v').
    + by apply Forall_dict_del.
Qed.

(** X1.  In every reachable store the list names of a user are distinct and
    every list record carries the name it is filed under. *)
Theorem reachable_list_names (s : Store) (u : string) (ul : UserLists) :
  reachable s ->
  s !! u = Some ul ->
  NoDup (map fst ul) /\
  (forall n ld, dict_get n ul = Some ld -> ListData.name ld = n) /\
  (forall n ld, (n, ld) ∈ ul <-> dict_get n ul = Some ld).
Proof.
  intros Hs Hu.
  assert (wf_lists ul) as [Hnd Hnames].
  { pose proof (reachable_lists_invariant wf_lists) as H.
    specialize (H ltac:(by split; constructor) lists_step_wf s Hs u).
    unfold user_lists_of in H. by rewrite Hu in H. }
  split; [done|]. rewrite Forall_forall in Hnames. split.
  - intros n ld Hn. apply (Hnames (n, ld)). by apply dict_get_elem.
  - intros n ld. split; [|apply dict_get_elem].
    clear Hnames Hu. induction ul as [|[k v] ul IH]; intros Hin.
    + by apply not_elem_of_nil in Hin.
    + apply NoDup_cons in Hnd as [Hk Hnd]. simpl.
      apply elem_of_cons in Hin as [[= -> ->]|Hin].
      * by rewrite String.eqb_refl.
      * destruct (String.eqb_spec k n) as [->|Hne]; [|by apply IH].
        exfalso. apply Hk. apply list_elem_of_fmap. by exists (n, ld).
Qed.

Lemma reachable_list_names_witness :
  NoDup (map fst (user_lists_of "alice" sample_store)).
Proof.
  refine (proj1 (reachable_list_names sample_store "alice"
                   (user_lists_of "alice" sample_store) _ _)).
  - by exists sample_trace.
  - by vm_compute.
Defined.

(** ** Item ids *)

Lemma items_add_ids_ge_pos items x :
  ids_ge_pos items -> Item.id x = len items + 1 -> ids_ge_pos (items ++ [x]).
Proof.
  intros Hinv Hx i it Hi.
  apply lookup_app_Some in Hi as [Hi|[Hlen Hi]]; [by apply Hinv|].
  apply list_lookup_singleton_Some in Hi as [Hi <-].
  rewrite Hx. unfold len. lia.
Qed.

Lemma items_remove_ids_ge_pos l1 x l2 :
  ids_ge_pos (l1 ++ x :: l2) -> ids_ge_pos (l1 ++ l2).
Proof.
  intros Hinv i it Hi.
  apply lookup_app_Some in Hi as [Hi|[Hlen Hi]].
  - apply Hinv. by apply lookup_app_l_Some.
  - assert ((l1 ++ x :: l2) !! S i = Some it) as Hi'.
    { rewrite lookup_app_r by lia.
      replace (S i - length l1)%nat with (S (i - length l1)) by lia. done. }
    apply Hinv in Hi'. lia.
Qed.

Lemma items_toggle_ids_ge_pos l1 x l2 b :
  ids_ge_pos (l1 ++ x :: l2) ->
  ids_ge_pos (l1 ++ Item.set_completed b x :: l2).
Proof.
  intros Hinv i it Hi.
  apply lookup_app_Some in Hi as [Hi|[Hlen Hi]].
  - apply Hinv. by apply lookup_app_l_Some.
  - destruct (i - length l1)%nat as [|k] eqn:E; simpl in Hi.
    + injection Hi as <-. simpl.
      apply (Hinv i x). rewrite lookup_app_r by lia. by rewrite E.
    + apply Hinv. rewrite lookup_app_r by lia. by rewrite E.
Qed.

Lemma lists_step_ids_ge_pos c ul ul' :
  lists_step c ul ul' ->
  Forall (fun e : string * ListData.t => ids_ge_pos (ListData.items (snd e))) ul ->
  Forall (fun e : string * ListData.t => ids_ge_pos (ListData.items (snd e))) ul'.
Proof.
  intros Hstep Hinv.
  assert (forall l ld, dict_get l ul = Some ld ->
            ids_ge_pos (ListData.items ld)) as Hget.
  { intros l ld Hl. rewrite Forall_forall in Hinv.
    apply (Hinv (l, ld)). by apply dict_get_elem. }
  destruct Hstep; try done.
  - apply Forall_app. split; [done|]. repeat constructor.
    intros i it Hi. simpl in Hi. by destruct i.
  - apply Forall_dict_set; [done|]. simpl.
    apply items_add_ids_ge_pos; [by eapply Hget|done].
  - apply Forall_dict_set; [done|]. simpl.
    apply (items_remove_ids_ge_pos l1 x l2).
    match goal with H : first_with_id _ _ _ _ _ |- _ =>
      destruct H as (<- & _ & _) end.
    by eapply Hget.
  - by apply Forall_dict_del.
  - apply Forall_dict_set; [done|]. simpl.
    apply items_toggle_ids_ge_pos.
    match goal with H : first_with_id _ _ _ _ _ |- _ =>
      destruct H as (<- & _ & _) end.
    by eapply Hget.
Qed.

(** X2.  In every reachable store an item's id is at least its 1-based
    position in its list, so every id is at least 1, and
    [remove_item_from_list] and [toggle_item_completion] with an id below 1
    fail with the not-found message. *)
Theorem reachable_item_ids (s : Store) (h : Headers) (L : string)
    (items : list Item.t) :
  reachable s ->
  items_of (get_user_id h) L s = Some items ->
  (forall (i : nat) it, items !! i = Some it -> Z.of_nat i + 1 <= Item.id it) /\
  (forall it, it ∈ items -> 1 <= Item.id it) /\
  (forall item_id, item_id < 1 ->
     let not_found :=
       Failure ("Item with ID " +:+ pretty item_id +:+ " not found in list '"
                +:+ L +:+ "'") in
     remove_item_from_list h L item_id s = (not_found, s) /\
     toggle_item_completion h L item_id s = (not_found, s)).
Proof.
  intros Hs Hit. unfold items_of in Hit.
  destruct (dict_get L (user_lists_of (get_user_id h) s)) as [ld|] eqn:Hld;
    [|done].
  injection Hit as <-.
  assert (ids_ge_pos (ListData.items ld)) as Hinv.
  { pose proof (reachable_lists_invariant
                  (Forall (fun e : string * ListData.t =>
                             ids_ge_pos (ListData.items (snd e))))
                  (Forall_nil_2 _) lists_step_ids_ge_pos s Hs (get_user_id h))
      as H.
    rewrite Forall_forall in H. apply (H (L, ld)). by apply dict_get_elem. }
  assert (forall it, it ∈ ListData.items ld -> 1 <= Item.id it) as Hpos.
  { intros it (i & Hi)%list_elem_of_lookup_1. apply Hinv in Hi. lia. }
  split; [done|]. split; [done|].
  intros item_id Hid not_found.
  assert (id_free item_id (ListData.items ld)) as Hfree.
  { apply Forall_forall. intros it Hin. apply Hpos in Hin. lia. }
  split.
  - apply (remove_item_from_list_not_found h L item_id s ld); [done|].
    by apply pop_by_id_None.
  - apply (toggle_item_completion_not_found h L item_id s ld); [done|].
    by apply toggle_by_id_None.
Qed.

Lemma reachable_item_ids_witness :
  remove_item_from_list alice "G" 0 sample_store
  = (Failure "Item with ID 0 not found in list 'G'", sample_store).
Proof.
  refine (proj1 (proj2 (proj2 (reachable_item_ids sample_store alice "G"
    [Item.mk "eggs" 12 "free range" true 2] _ _)) 0 _)).
  - by exists sample_trace.
  - by vm_compute.
  - reflexivity.
Defined.

(** ** Failures and missing lists *)

Lemma user_lists_of_insert_own u v s :
  user_lists_of v (<[u := user_lists_of u s]> s) = user_lists_of v s.
Proof.
  destruct (decide (u = v)) as [->|Hne].
  - apply user_lists_of_insert_eq.
  - unfold user_lists_of at 1 3. by rewrite lookup_insert_ne.
Qed.

Lemma exec_missing_list (h : Headers) (c : Call) (L : string) (s : Store) :
  call_list_name c = Some L ->
  dict_get L (user_lists_of (get_user_id h) s) = None ->
  fst (exec (h, c) s) = Failure ("List '" +:+ L +:+ "' does not exist") /\
  forall v, user_lists_of v (snd (exec (h, c) s)) = user_lists_of v s.
Proof.
  intros Hc Hnone.
  destruct c; simpl in Hc; try discriminate Hc; injection Hc as ->;
    unfold exec, add_item_to_list, get_list_items, remove_item_from_list,
      delete_list, toggle_item_completion; store_simpl; rewrite Hnone;
    (split; [done|]); intros v; apply user_lists_of_insert_own.
Qed.

(** X3.  The tools that address a list by name ([add_item_to_list],
    [get_list_items], [remove_item_from_list], [delete_list],
    [toggle_item_completion]) fail with the does-not-exist message when the
    caller has no list of that name, and leave every collection as it was. *)
Theorem missing_list_fails (h : Headers) (c : Call) (L : string) (s : Store) :
  call_list_name c = Some L ->
  dict_get L (user_lists_of (get_user_id h) s) = None ->
  fst (exec (h, c) s) = Failure ("List '" +:+ L +:+ "' does not exist") /\
  forall v, user_lists_of v (snd (exec (h, c) s)) = user_lists_of v s.
Proof. apply exec_missing_list. Qed.

Lemma missing_list_fails_witness :
  fst (exec (bob, ToggleItem "T" 1) sample_store)
  = Failure "List 'T' does not exist".
Proof.
  refine (proj1 (missing_list_fails bob (ToggleItem "T" 1) "T" sample_store
                   _ _)).
  - reflexivity.
  - by vm_compute.
Defined.

(** X4.  A call that answers [success: false] has changed no collection,
    whichever tool it is and whatever made it fail. *)
Theorem failure_changes_nothing (h : Headers) (c : Call) (s : Store) :
  success (fst (exec (h, c) s)) = false ->
  forall v, user_lists_of v (snd (exec (h, c) s)) = user_lists_of v s.
Proof.
  destruct c; unfold exec, create_list, add_item_to_list, get_lists,
    get_list_items, remove_item_from_list, delete_list,
    toggle_item_completion, search_items; store_simpl;
    repeat case_match; simpl; intros Hfail v; try discriminate Hfail;
    apply user_lists_of_insert_own.
Qed.

Lemma failure_changes_nothing_witness :
  user_lists_of "alice" (snd (exec (alice, RemoveItem "G" 7) sample_store))
  = user_lists_of "alice" sample_store.
Proof.
  refine (failure_changes_nothing alice (RemoveItem "G" 7) sample_store _
            "alice").
  by vm_compute.
Defined.

(** ** Users *)

Lemma exec_dom (h : Headers) (c : Call) (s : Store) :
  dom (snd (exec (h, c) s)) = {[ get_user_id h ]} ∪ dom s.
Proof. rewrite exec_local. simpl. by rewrite dom_insert_L. Qed.

(** X5.  After a trace the store has an entry for every user it had before
    and for every user that made a request, reads and failed calls included,
    and for no one else: entries are created on first use and never removed. *)
Theorem store_users (reqs : list Request) (s : Store) :
  dom (snd (run reqs s)) = dom s ∪ callers reqs.
Proof.
  revert s. unfold callers.
  induction reqs as [|[h c] reqs IH]; intros s.
  - simpl. by rewrite (right_id_L ∅ (∪)).
  - rewrite run_cons. cbn [snd]. rewrite IH, exec_dom.
    rewrite map_cons, list_to_set_cons. cbn [fst].
    by rewrite (comm_L (∪) {[get_user_id h]} (dom s)), (assoc_L (∪)).
Qed.

(** X6.  The tools see the headers through [get_user_id] only: requests
    whose headers give the same user id are answered alike and leave the
    same store, so a request that sends the id ["anonymous"] works on the
    collection of the requests that send no id. *)
Theorem same_user_same_result (h h' : Headers) (c : Call) (s : Store) :
  get_user_id h = get_user_id h' ->
  exec (h, c) s = exec (h', c) s.
Proof.
  intros E.
  destruct c; unfold exec, create_list, add_item_to_list, get_lists,
    get_list_items, remove_item_from_list, delete_list,
    toggle_item_completion, search_items; cbv zeta; by rewrite E.
Qed.

Lemma same_user_same_result_witness :
  exec (no_headers, GetLists) sample_store
  = exec ({[ "x-user-id" := "anonymous" ]}, GetLists) sample_store.
Proof.
  refine (same_user_same_result no_headers {[ "x-user-id" := "anonymous" ]}
            GetLists sample_store _).
  reflexivity.
Defined.

(** ** Creating and deleting lists *)

Lemma get_list_items_existing h L s ld :
  dict_get L (user_lists_of (get_user_id h) s) = Some ld ->
  get_list_items h L s
  = (ListItems L (ListData.items ld) (len (ListData.items ld)), s).
Proof.
  intros Hld. unfold get_list_items. store_simpl. rewrite Hld.
  by erewrite store_insert_own.
Qed.

Lemma create_list_absent h name description s :
  let u := get_user_id h in
  let list_data := ListData.mk name description [] in
  dict_get name (user_lists_of u s) = None ->
  create_list h name description s
  = (Created ("List '" +:+ name +:+ "' created successfully") list_data,
     <[u := user_lists_of u s ++ [(name, list_data)]]> s).
Proof.
  intros u list_data Hnone. unfold create_list. store_simpl. fold u.
  apply dict_mem_false in Hnone as Hm. rewrite Hm. store_simpl.
  by rewrite dict_set_absent.
Qed.

Lemma delete_list_existing h L s ld :
  let u := get_user_id h in
  dict_get L (user_lists_of u s) = Some ld ->
  delete_list h L s
  = (Deleted ("List '" +:+ L +:+ "' deleted successfully") ld,
     <[u := dict_del L (user_lists_of u s)]> s).
Proof.
  intros u Hld. unfold delete_list. store_simpl. fold u.
  rewrite Hld. by store_simpl.
Qed.

(** X7.  [create_list] with a name the caller does not have succeeds: the
    new list is empty, carries the name and the description, and goes last
    in the caller's collection behind the lists already there, which stay as
    they are; [get_list_items] then shows no items and [get_lists] one more
    summary, at the end, with both counts 0. *)
Theorem create_list_fresh (h : Headers) (name description : string)
    (s : Store) :
  let u := get_user_id h in
  let ul := user_lists_of u s in
  let list_data := ListData.mk name description [] in
  let s' := snd (create_list h name description s) in
  dict_get name ul = None ->
  fst (create_list h name description s)
  = Created ("List '" +:+ name +:+ "' created successfully") list_data /\
  user_lists_of u s' = ul ++ [(name, list_data)] /\
  (forall n ld, dict_get n ul = Some ld ->
     dict_get n (user_lists_of u s') = Some ld) /\
  fst (get_list_items h name s') = ListItems name [] 0 /\
  (exists lists,
     fst (get_lists h s) = Lists lists (len lists) /\
     fst (get_lists h s')
     = Lists (lists ++ [Summary.mk name description 0 0]) (len lists + 1)).
Proof.
  intros u ul list_data s' Hnone. subst s'.
  rewrite (create_list_absent h name description s) by done.
  cbn [fst snd]. fold u ul list_data.
  rewrite user_lists_of_insert_eq.
  split; [done|]. split; [done|]. split; [|split].
  - intros n ld Hn. by apply dict_get_app_l.
  - rewrite (get_list_items_existing _ _ _ list_data); [done|].
    subst u. rewrite user_lists_of_insert_eq. fold ul.
    rewrite dict_get_app_r by done. simpl. by rewrite String.eqb_refl.
  - exists (map summary ul). unfold get_lists. subst u. store_simpl.
    fold ul. cbn [fst]. split; [done|].
    rewrite map_app. simpl. unfold len. rewrite length_app. simpl.
    do 2 f_equal. lia.
Qed.

Lemma create_list_fresh_witness :
  user_lists_of "bob" (snd (create_list bob "T" "todo" sample_store))
  = user_lists_of "bob" sample_store ++ [("T", ListData.mk "T" "todo" [])].
Proof.
  refine (proj1 (proj2 (create_list_fresh bob "T" "todo" sample_store _))).
  by vm_compute.
Defined.

(** X8.  Creating a list under a new name and deleting it again gives back
    the empty record that was made and leaves every collection as it was
    before the two calls. *)
Theorem create_delete_round_trip (h : Headers) (name description : string)
    (s : Store) :
  let u := get_user_id h in
  let s1 := snd (create_list h name description s) in
  dict_get name (user_lists_of u s) = None ->
  fst (delete_list h name s1)
  = Deleted ("List '" +:+ name +:+ "' deleted successfully")
      (ListData.mk name description []) /\
  forall v, user_lists_of v (snd (delete_list h name s1)) = user_lists_of v s.
Proof.
  intros u s1 Hnone. subst s1.
  rewrite (create_list_absent h name description s) by done. cbn [snd].
  fold u.
  subst u.
  rewrite (delete_list_existing h name _ (ListData.mk name description [])).
  2: { rewrite user_lists_of_insert_eq, dict_get_app_r by done.
       simpl. by rewrite String.eqb_refl. }
  cbn [fst snd]. split; [done|]. intros v.
  rewrite user_lists_of_insert_eq, insert_insert_eq.
  rewrite dict_del_app_last by done. apply user_lists_of_insert_own.
Qed.

Lemma create_delete_round_trip_witness :
  user_lists_of "bob"
    (snd (delete_list bob "T" (snd (create_list bob "T" "todo" sample_store))))
  = user_lists_of "bob" sample_store.
Proof.
  refine (proj2 (create_delete_round_trip bob "T" "todo" sample_store _) "bob").
  by vm_compute.
Defined.

Lemma reachable_wf s u : reachable s -> wf_lists (user_lists_of u s).
Proof.
  intros Hs.
  apply (reachable_lists_invariant wf_lists); [|apply lists_step_wf|done].
  split; constructor.
Qed.

(** X9.  In a reachable store [delete_list] of an existing list returns the
    whole record, takes exactly that list out of the caller's collection and
    keeps the other lists in their order. Afterwards the name is free: a
    second [delete_list] fails, and a list created anew under the name
    starts empty, whatever the deleted list held. *)
Theorem delete_list_removes (h : Headers) (L description : string)
    (s : Store) (ld : ListData.t) :
  let u := get_user_id h in
  let ul := user_lists_of u s in
  let s' := snd (delete_list h L s) in
  reachable s ->
  dict_get L ul = Some ld ->
  fst (delete_list h L s)
  = Deleted ("List '" +:+ L +:+ "' deleted successfully") ld /\
  user_lists_of u s'
  = filter (fun e : string * ListData.t => fst e <> L) ul /\
  dict_get L (user_lists_of u s') = None /\
  (forall n, n <> L -> dict_get n (user_lists_of u s') = dict_get n ul) /\
  fst (delete_list h L s') = Failure ("List '" +:+ L +:+ "' does not exist") /\
  fst (get_list_items h L (snd (create_list h L description s')))
  = ListItems L [] 0.
Proof.
  intros u ul s' Hs Hld. subst s'.
  pose proof (reachable_wf s u Hs) as [Hnd _]. fold ul in Hnd.
  rewrite (delete_list_existing h L s ld) by done. cbn [fst snd]. fold u ul.
  rewrite user_lists_of_insert_eq.
  assert (dict_get L (dict_del L ul) = None) as Hgone
    by (by apply dict_get_del_eq).
  split; [done|]. split; [by apply dict_del_filter|]. split; [done|].
  split; [intros n Hn; by apply dict_get_del_ne|]. split.
  - apply (exec_missing_list h (DeleteList L) L); [done|].
    subst u. by rewrite user_lists_of_insert_eq.
  - assert (dict_get L (user_lists_of (get_user_id h)
                          (<[u := dict_del L ul]> s)) = None) as Hnone.
    { subst u. by rewrite user_lists_of_insert_eq. }
    rewrite (create_list_absent h L description _ Hnone). cbn [snd].
    rewrite (get_list_items_existing _ _ _ (ListData.mk L description []));
      [done|].
    rewrite user_lists_of_insert_eq, dict_get_app_r by done.
    simpl. by rewrite String.eqb_refl.
Qed.

Lemma delete_list_removes_witness :
  user_lists_of "alice" (snd (delete_list alice "G" sample_store))
  = [("T", ListData.mk "T" "todo" [])].
Proof.
  refine (proj1 (proj2 (delete_list_removes alice "G" "" sample_store
    (ListData.mk "G" "groceries" [Item.mk "eggs" 12 "free range" true 2])
    _ _))).
  - by exists sample_trace.
  - by vm_compute.
Defined.

(** ** One list along a trace *)

(** What one step does to a given list of the collection. *)
Lemma lists_step_list c ul ul' L ld :
  lists_step c ul ul' ->
  dict_get L ul = Some ld ->
  c = DeleteList L \/
  exists ld',
    dict_get L ul' = Some ld' /\
    ListData.name ld' = ListData.name ld /\
    ListData.description ld' = ListData.description ld /\
    (ListData.items ld' = ListData.items ld \/
     (exists t q nt,
        c = AddItem L t q nt /\
        ListData.items ld'
        = ListData.items ld
          ++ [Item.mk t q nt false (len (ListData.items ld) + 1)]) \/
     (exists i l1 x l2,
        c = RemoveItem L i /\ first_with_id i (ListData.items ld) l1 x l2 /\
        ListData.items ld' = l1 ++ l2) \/
     (exists i l1 x l2,
        c = ToggleItem L i /\ first_with_id i (ListData.items ld) l1 x l2 /\
        ListData.items ld'
        = l1 ++ Item.set_completed (negb (Item.completed x)) x :: l2)).
Proof.
  intros Hstep.
  destruct Hstep as [c ul|n d ul Hn|l t q nt ul ld0 Hl x
                    |l i ul ld0 l1 x l2 Hl Hfirst|l ul ld0 Hl
                    |l i ul ld0 l1 x l2 Hl Hfirst x']; intros Hld.
  - right. exists ld. repeat split; auto.
  - right. exists ld. split; [by apply dict_get_app_l|repeat split; auto].
  - right. destruct (decide (l = L)) as [->|Hl'].
    + rewrite Hld in Hl. injection Hl as <-. eexists.
      split; [apply dict_get_set_eq|]. simpl. do 2 (split; [done|]).
      right. left. by exists t, q, nt.
    + exists ld. rewrite dict_get_set_ne by done. repeat split; auto.
  - right. destruct (decide (l = L)) as [->|Hl'].
    + rewrite Hld in Hl. injection Hl as <-. eexists.
      split; [apply dict_get_set_eq|]. simpl. do 2 (split; [done|]).
      right. right. left. by exists i, l1, x, l2.
    + exists ld. rewrite dict_get_set_ne by done. repeat split; auto.
  - destruct (decide (l = L)) as [->|Hl']; [by left|].
    right. exists ld. rewrite dict_get_del_ne by done. repeat split; auto.
  - right. destruct (decide (l = L)) as [->|Hl'].
    + rewrite Hld in Hl. injection Hl as <-. eexists.
      split; [apply dict_get_set_eq|]. simpl. do 2 (split; [done|]).
      right. right. right. by exists i, l1, x, l2.
    + exists ld. rewrite dict_get_set_ne by done. repeat split; auto.
Qed.

(** What one request does to a given list of a given user: it deletes the
    list, or the list stays under its name and description and its items
    are as before, or extended by an added item, or without a removed
    item, or with one item toggled. *)
Lemma exec_list_cases u L req s ld :
  dict_get L (user_lists_of u s) = Some ld ->
  deletes u L req = true \/
  exists ld',
    dict_get L (user_lists_of u (snd (exec req s))) = Some ld' /\
    ListData.name ld' = ListData.name ld /\
    ListData.description ld' = ListData.description ld /\
    (ListData.items ld' = ListData.items ld \/
     (adds_to u L req = true /\
      exists x, Item.id x = len (ListData.items ld) + 1 /\
                ListData.items ld' = ListData.items ld ++ [x]) \/
     (removes_from u L req = true /\
      exists i l1 x l2, first_with_id i (ListData.items ld) l1 x l2 /\
                        ListData.items ld' = l1 ++ l2) \/
     (exists i l1 x l2,
        first_with_id i (ListData.items ld) l1 x l2 /\
        ListData.items ld'
        = l1 ++ Item.set_completed (negb (Item.completed x)) x :: l2)).
Proof.
  destruct req as [h c]. intros Hld.
  destruct (decide (get_user_id h = u)) as [Hu|Hne]; [subst u|].
  2: { right. exists ld. unfold user_lists_of in *.
       rewrite exec_frame by done. repeat split; auto. }
  destruct (lists_step_list _ _ _ L ld (exec_step h c s) Hld)
    as [->|(ld' & Hld' & Hn & Hd & Hcases)].
  { left. simpl. by rewrite !String.eqb_refl. }
  right. exists ld'. do 3 (split; [done|]).
  destruct Hcases as [E|[(t & q & nt & -> & E)|[(i & l1 & x & l2 & -> & Hf & E)
                     |(i & l1 & x & l2 & _ & Hf & E)]]].
  - by left.
  - right. left. split; [simpl; by rewrite !String.eqb_refl|].
    eexists. split; [|exact E]. done.
  - right. right. left. split; [simpl; by rewrite !String.eqb_refl|].
    by exists i, l1, x, l2.
  - right. right. right. by exists i, l1, x, l2.
Qed.

(** X10.  As long as no request deletes the list, it stays in the caller's
    collection under its name and with the description it was created with:
    no tool rewrites a name or a description. *)
Theorem list_description_kept (u L : string) (reqs : list Request)
    (s : Store) (ld : ListData.t) :
  dict_get L (user_lists_of u s) = Some ld ->
  Forall (fun req => deletes u L req = false) reqs ->
  exists ld',
    dict_get L (user_lists_of u (snd (run reqs s))) = Some ld' /\
    ListData.name ld' = ListData.name ld /\
    ListData.description ld' = ListData.description ld.
Proof.
  revert s ld. induction reqs as [|req reqs IH]; intros s ld Hld Hall.
  - exists ld. repeat split; auto.
  - inversion Hall as [|? ? Hreq Hrest]; subst. rewrite run_cons. cbn [snd].
    destruct (exec_list_cases u L req s ld Hld)
      as [Hdel|(ld1 & Hld1 & Hn1 & Hd1 & _)]; [congruence|].
    destruct (IH _ _ Hld1 Hrest) as (ld' & Hld' & Hn' & Hd').
    exists ld'. split; [done|]. split; congruence.
Qed.

Lemma list_description_kept_witness :
  exists ld',
    dict_get "G" (user_lists_of "alice" sample_store) = Some ld' /\
    ListData.description ld' = "groceries".
Proof.
  destruct (list_description_kept "alice" "G" (tail sample_trace)
              (snd (exec (alice, CreateList "G" "groceries") user_lists_data))
              (ListData.mk "G" "groceries" []))
    as (ld' & Hld' & _ & Hd').
  - by vm_compute.
  - repeat constructor.
  - exists ld'. split; [exact Hld'|exact Hd'].
Defined.

(** ** Ids without removals *)

Lemma ids_from_snoc m n :
  ids_from m (S n) = ids_from m n ++ [m + Z.of_nat n + 1].
Proof.
  revert m. induction n as [|n IH]; intros m.
  - simpl. f_equal; lia.
  - change (ids_from m (S (S n))) with ((m + 1) :: ids_from (m + 1) (S n)).
    rewrite IH. simpl. do 3 f_equal. lia.
Qed.

Lemma ids_from_lower m n x : x ∈ ids_from m n -> m < x.
Proof.
  revert m. induction n as [|n IH]; intros m; simpl.
  - by intros ?%not_elem_of_nil.
  - intros [->|Hin%IH]%elem_of_cons; lia.
Qed.

Lemma ids_from_NoDup m n : NoDup (ids_from m n).
Proof.
  revert m. induction n as [|n IH]; intros m; simpl; constructor; [|done].
  intros Hin%ids_from_lower. lia.
Qed.

Lemma ids_in_order_add items x :
  ids_in_order items -> Item.id x = len items + 1 ->
  ids_in_order (items ++ [x]).
Proof.
  unfold ids_in_order, len. intros Hids Hx.
  rewrite map_app, length_app, Hids. simpl.
  rewrite Nat.add_1_r, ids_from_snoc, Hx. do 2 f_equal; lia.
Qed.

Lemma ids_in_order_toggle l1 x l2 b :
  ids_in_order (l1 ++ x :: l2) ->
  ids_in_order (l1 ++ Item.set_completed b x :: l2).
Proof.
  unfold ids_in_order. by rewrite !map_app, !length_app.
Qed.

(** X11.  While nothing is removed from a list whose ids are 1..n in order
    (an empty list is one), its ids stay 1..n' in order along any trace:
    they are pairwise distinct, and an id names the item at that position. *)
Theorem ids_in_order_without_removals (u L : string) (reqs : list Request)
    (s : Store) (items : list Item.t) :
  items_of u L s = Some items ->
  ids_in_order items ->
  Forall (fun req => removes_from u L req = false) reqs ->
  exists items',
    items_of u L (snd (run reqs s)) = Some items' /\
    ids_in_order items' /\
    NoDup (map Item.id items') /\
    (forall (i : nat) it, items' !! i = Some it -> Item.id it = Z.of_nat i + 1).
Proof.
  revert s items. induction reqs as [|req reqs IH]; intros s items Hit Hids Hall.
  - exists items. split; [done|]. split; [done|]. split.
    + rewrite Hids. apply ids_from_NoDup.
    + intros i it Hi.
      assert (map Item.id items !! i = Some (Item.id it)) as Hm
        by (by rewrite list_lookup_fmap, Hi).
      rewrite Hids, ids_from_lookup in Hm
        by (by eapply lookup_lt_Some).
      injection Hm as <-. lia.
  - inversion Hall as [|? ? Hreq Hrest]; subst. rewrite run_cons. cbn [snd].
    unfold items_of in Hit.
    destruct (dict_get L (user_lists_of u s)) as [ld|] eqn:Hld; [|done].
    injection Hit as <-.
    destruct (exec_list_cases u L req s ld Hld)
      as [Hdel|(ld1 & Hld1 & _ & _ & Hcases)].
    { destruct req as [h []]; simpl in *; congruence. }
    apply (IH (snd (exec req s)) (ListData.items ld1)); [|clear IH|done].
    { unfold items_of. by rewrite Hld1. }
    destruct Hcases as [->|[(_ & x & Hx & ->)|[(Hrm & _)
                       |(i & l1 & x & l2 & (E & _ & _) & ->)]]].
    + done.
    + by apply ids_in_order_add.
    + congruence.
    + apply ids_in_order_toggle. by rewrite <- E.
Qed.

Lemma ids_in_order_without_removals_witness :
  exists items',
    items_of "alice" "G"
      (snd (run [ (alice, AddItem "G" "milk" 1 ""); (alice, ToggleItem "G" 1);
                  (alice, AddItem "G" "eggs" 12 "") ]
              (snd (create_list alice "G" "" user_lists_data))))
    = Some items' /\
    NoDup (map Item.id items').
Proof.
  destruct (ids_in_order_without_removals "alice" "G"
              [ (alice, AddItem "G" "milk" 1 ""); (alice, ToggleItem "G" 1);
                (alice, AddItem "G" "eggs" 12 "") ]
              (snd (create_list alice "G" "" user_lists_data)) [])
    as (items' & Hit & _ & Hnd & _).
  - by vm_compute.
  - reflexivity.
  - repeat constructor.
  - exists items'. split; [exact Hit|exact Hnd].
Defined.

(** ** Reading back what was added *)

(** X12.  After a run of [add_item_to_list] calls on an existing list,
    [get_list_items] returns the items the list had followed by the new
    items in call order, each with the text, quantity and notes it was added
    with, not completed, and numbered on from the old item count;
    [total_items] is the old count plus the number of calls. *)
Theorem added_items_listed (h : Headers) (L : string)
    (entries : list (string * Z * string)) (s : Store) (ld : ListData.t) :
  dict_get L (user_lists_of (get_user_id h) s) = Some ld ->
  let s' := snd (run (add_calls h L entries) s) in
  let items := ListData.items ld in
  get_list_items h L s'
  = (ListItems L (items ++ new_items (len items) entries)
       (len items + len entries), s').
Proof.
  revert s ld. induction entries as [|[[t q] nt] entries IH];
    intros s ld Hld s' items; subst s' items.
  - simpl. rewrite app_nil_r, Z.add_0_r.
    by apply get_list_items_existing.
  - unfold add_calls. rewrite map_cons, run_cons. cbn [fst snd exec].
    rewrite (add_item_to_list_existing h L t q nt s ld) by done. cbn [snd].
    fold (add_calls h L entries).
    rewrite (IH _ _ (with_items_get _ _ _ _ _)). cbn zeta.
    cbn [ListData.items ListData.set_items].
    set (x := Item.mk t q nt false (len (ListData.items ld) + 1)).
    assert (len (ListData.items ld ++ [x]) = len (ListData.items ld) + 1)
      as -> by (unfold len; rewrite length_app; simpl; lia).
    rewrite <- app_assoc. cbn [app new_items fst snd].
    do 2 f_equal. unfold len. simpl length. lia.
Qed.

Lemma added_items_listed_witness :
  fst (get_list_items bob "G"
         (snd (run (add_calls bob "G" [("chess", 1, ""); ("go", 2, "19x19")])
                 sample_store)))
  = ListItems "G" [ Item.mk "chess" 1 "" false 1;
                    Item.mk "go" 2 "19x19" false 2 ] 2.
Proof.
  refine (f_equal fst
            (added_items_listed bob "G" [("chess", 1, ""); ("go", 2, "19x19")]
               sample_store (ListData.mk "G" "games" []) _)).
  by vm_compute.
Defined.

(** ** Search results *)

Lemma elem_of_searched (query : string) (lists : UserLists) n it :
  (n, it) ∈ concat (map (search_list query) lists) <->
  exists ld, (n, ld) ∈ lists /\ it ∈ ListData.items ld /\
             item_matches query it = true.
Proof.
  induction lists as [|[k v] lists IH]; simpl.
  - split; [by intros ?%not_elem_of_nil|].
    by intros (ld & ?%not_elem_of_nil & _).
  - rewrite elem_of_app, IH, list_elem_of_fmap. split.
    + intros [(it' & [= -> ->] & Hin)|(ld & Hld & Hit & Hm)].
      * apply list_elem_of_In, filter_In in Hin as [Hin Hm].
        exists v. split; [apply list_elem_of_here|].
        split; [by apply list_elem_of_In|done].
      * exists ld. split; [by apply list_elem_of_further|done].
    + intros (ld & [[= -> ->]|Hld]%elem_of_cons & Hit & Hm).
      * left. exists it. split; [done|].
        apply list_elem_of_In, filter_In. split; [|done].
        by apply list_elem_of_In.
      * right. by exists ld.
Qed.

(** X13.  For an ASCII query over a collection of ASCII texts and notes,
    [search_items] returns exactly the matching items of the lists it
    searches: a pair of a list name and an item is among the results if
    and only if the item is in a searched list of that name and the
    lower-cased query is a substring of its lower-cased text or of its
    lower-cased notes.  Every result names a list of the caller that
    holds the item. *)
Theorem search_items_exact (h : Headers) (query : string)
    (list_name : option string) (s : Store) :
  let ul := user_lists_of (get_user_id h) s in
  isascii query = true ->
  lists_ascii ul = true ->
  exists results,
    fst (search_items h query list_name s) = Found query results (len results) /\
    (forall n it,
       (n, it) ∈ results <->
       exists ld, (n, ld) ∈ lists_to_search list_name ul /\
                  it ∈ ListData.items ld /\
                  (is_substring (lower query) (lower (Item.text it)) \/
                   is_substring (lower query) (lower (Item.notes it)))) /\
    (forall n it, (n, it) ∈ results ->
                  exists ld, (n, ld) ∈ ul /\ it ∈ ListData.items ld).
Proof.
  intros ul _ _. unfold search_items. store_simpl. fold ul. cbn [fst].
  eexists. split; [reflexivity|]. split.
  - intros n it. rewrite elem_of_searched.
    by setoid_rewrite item_matches_spec.
  - intros n it (ld & Hld & Hit & _)%elem_of_searched.
    exists ld. split; [|done]. by eapply lists_to_search_subset.
Qed.

(** The query ["EGG"] over Alice's lists finds her eggs, in list G. *)
Lemma search_items_exact_witness :
  exists results,
    fst (search_items alice "EGG" None sample_store)
    = Found "EGG" results (len results) /\
    ("G", Item.mk "eggs" 12 "free range" true 2) ∈ results.
Proof.
  destruct (search_items_exact alice "EGG" None sample_store)
    as (results & Hr & Hiff & _); [reflexivity..|].
  exists results. split; [exact Hr|].
  apply Hiff.
  exists (ListData.mk "G" "groceries" [Item.mk "eggs" 12 "free range" true 2]).
  split; [apply list_elem_of_here|].
  split; [apply list_elem_of_here|].
  left. by exists "", "s".
Defined.

(** ** Toggling and the completed count *)

(** X14.  A successful [toggle_item_completion] leaves the list's item count
    as it was and moves its completed count, as [get_lists] reports them, by
    one: up when the returned item is completed, down when it is not; the
    message says which. *)
Theorem toggle_moves_completed_count (h : Headers) (L : string) (item_id : Z)
    (s s' : Store) (ld : ListData.t) (m : string) (x : Item.t) :
  dict_get L (user_lists_of (get_user_id h) s) = Some ld ->
  toggle_item_completion h L item_id s = (Toggled m x, s') ->
  exists ld',
    dict_get L (user_lists_of (get_user_id h) s') = Some ld' /\
    Summary.item_count (summary (L, ld'))
    = Summary.item_count (summary (L, ld)) /\
    Summary.completed_count (summary (L, ld'))
    = Summary.completed_count (summary (L, ld))
      + (if Item.completed x then 1 else -1) /\
    m = "Item marked as "
        +:+ (if Item.completed x then "completed" else "uncompleted").
Proof.
  intros Hld Hrun.
  destruct (toggle_by_id item_id (ListData.items ld)) as [[z its]|] eqn:Ht.
  2: { rewrite (toggle_item_completion_not_found h L item_id s ld) in Hrun
         by done. discriminate Hrun. }
  rewrite (toggle_item_completion_found h L item_id s ld z its) in Hrun
    by done.
  injection Hrun as <- <- <-.
  apply toggle_by_id_Some in Ht as (l1 & y & l2 & (E & _ & _) & -> & ->).
  eexists. split; [apply with_items_get|]. simpl. rewrite E.
  split; [unfold len; by rewrite !length_app|]. split; [|done].
  rewrite !py_sum_ones, !List.filter_app. unfold len. cbn [List.filter].
  cbn [Item.set_completed Item.completed].
  destruct (Item.completed y); cbn [negb]; rewrite !length_app;
    cbn [length]; lia.
Qed.

Lemma toggle_moves_completed_count_witness :
  exists ld',
    dict_get "G" (user_lists_of "alice"
                    (snd (toggle_item_completion alice "G" 2 sample_store)))
    = Some ld' /\
    Summary.completed_count (summary ("G", ld')) = 0.
Proof.
  destruct (toggle_moves_completed_count alice "G" 2 sample_store
              (snd (toggle_item_completion alice "G" 2 sample_store))
              (ListData.mk "G" "groceries"
                 [Item.mk "eggs" 12 "free range" true 2])
              "Item marked as uncompleted"
              (Item.mk "eggs" 12 "free range" false 2))
    as (ld' & Hld' & _ & Hc & _).
  - by vm_compute.
  - by vm_compute.
  - exists ld'. split; [exact Hld'|]. rewrite Hc. reflexivity.
Defined.

(** ** Counts in summaries *)

(** X15.  In every summary of [get_lists] the completed count lies between 0
    and the item count, and [total_lists] is the number of summaries. *)
Theorem get_lists_counts_bounded (h : Headers) (s : Store) :
  exists lists,
    fst (get_lists h s) = Lists lists (len lists) /\
    forall sm, sm ∈ lists ->
      0 <= Summary.completed_count sm <= Summary.item_count sm.
Proof.
  unfold get_lists. store_simpl. cbn [fst].
  eexists. split; [reflexivity|].
  intros sm ([n ld] & -> & _)%list_elem_of_fmap. simpl.
  rewrite py_sum_ones. unfold len.
  pose proof (List.filter_length_le Item.completed (ListData.items ld)). lia.
Qed.

(** ** Scoped and unscoped search *)

Lemma filter_name_same (n : string) (its : list Item.t) :
  filter (fun r : string * Item.t => fst r = n) (map (pair n) its)
  = map (pair n) its.
Proof.
  induction its as [|it its IH]; [done|].
  rewrite map_cons, filter_cons, decide_True by done. by rewrite IH.
Qed.

Lemma filter_name_other (n k : string) (its : list Item.t) :
  k <> n ->
  filter (fun r : string * Item.t => fst r = n) (map (pair k) its) = [].
Proof.
  intros Hne. induction its as [|it its IH]; [done|].
  by rewrite map_cons, filter_cons, decide_False.
Qed.

Lemma filter_name_searched (query n : string) (lists : UserLists) :
  NoDup (map fst lists) ->
  filter (fun r : string * Item.t => fst r = n)
    (concat (map (search_list query) lists))
  = match dict_get n lists with
    | Some ld => search_list query (n, ld)
    | None => []
    end.
Proof.
  induction lists as [|[k v] lists IH]; [done|].
  intros [Hk Hnd]%NoDup_cons. cbn [map concat dict_get].
  rewrite filter_app, IH by done.
  destruct (String.eqb_spec k n) as [->|Hne].
  - assert (dict_get n lists = None) as ->
      by (by apply dict_get_None_keys).
    rewrite app_nil_r. apply filter_name_same.
  - unfold search_list at 1. by rewrite filter_name_other.
Qed.

(** X16.  In a reachable store a search scoped to an existing list with a
    non-empty name returns exactly those results of the unscoped search that
    carry the list's name, in the same order. *)
Theorem scoped_search_filters (h : Headers) (query n : string) (s : Store)
    (ld : ListData.t) :
  reachable s ->
  n <> "" ->
  dict_get n (user_lists_of (get_user_id h) s) = Some ld ->
  exists scoped all,
    fst (search_items h query (Some n) s) = Found query scoped (len scoped) /\
    fst (search_items h query None s) = Found query all (len all) /\
    scoped = filter (fun r : string * Item.t => fst r = n) all.
Proof.
  intros Hs Hn Hld.
  pose proof (reachable_wf s (get_user_id h) Hs) as [Hnd _].
  unfold search_items. store_simpl. cbn [fst].
  do 2 eexists. split; [reflexivity|]. split; [reflexivity|].
  cbn [lists_to_search]. rewrite filter_name_searched by done.
  rewrite Hld. destruct n; [done|]. cbn [str_truthy].
  simpl. by rewrite app_nil_r.
Qed.

Lemma scoped_search_filters_witness :
  exists scoped all,
    fst (search_items alice "e" (Some "G") sample_store)
    = Found "e" scoped (len scoped) /\
    fst (search_items alice "e" None sample_store) = Found "e" all (len all) /\
    scoped = filter (fun r : string * Item.t => fst r = "G") all.
Proof.
  refine (scoped_search_filters alice "e" "G" sample_store
            (ListData.mk "G" "groceries"
               [Item.mk "eggs" 12 "free range" true 2]) _ _ _).
  - by exists sample_trace.
  - discriminate.
  - by vm_compute.
Defined.
